(** * automate-terminal: terminal drivers

    A shallow embedding of the terminal drivers of automate-terminal
    ([terminals/base.py], [terminals/tmux.py], [terminals/vscode.py]) and
    the properties of their call protocols.

    Python [str] values are byte strings ([string]); the environment is a
    finite map; every call a driver makes to one of its collaborators
    (process helpers, OS scripting) is recorded, with its outcome, in an
    event log threaded through the computation.  Log output ([logger.*])
    has no effect on results or on the calls made and is left out. *)

From Stdlib Require Import ZArith String Ascii List Bool Lia.
From stdpp Require Import base option list strings gmap.

Local Open Scope string_scope.
Local Open Scope Z_scope.

(** ** Python string operations used by the drivers *)
Module PyStr.

(** [bool(s)] for a [str]. *)
Definition truthy (s : string) : bool :=
  match s with EmptyString => false | String _ _ => true end.

(** [bool(o)] for a [str | None]. *)
Definition truthy_opt (o : option string) : bool :=
  match o with Some s => truthy s | None => false end.

(** [c.isspace()] on the ASCII range: TAB..CR, FS..US and SPACE.  Strings
    are byte strings here, so white space outside ASCII is not trimmed. *)
Definition isspace (c : ascii) : bool :=
  let n := nat_of_ascii c in
  ((9 <=? n)%nat && (n <=? 13)%nat) || ((28 <=? n)%nat && (n <=? 32)%nat).

Fixpoint lstrip (s : string) : string :=
  match s with
  | EmptyString => EmptyString
  | String c rest => if isspace c then lstrip rest else s
  end.

Fixpoint rstrip (s : string) : string :=
  match s with
  | EmptyString => EmptyString
  | String c rest =>
      match rstrip rest with
      | EmptyString => if isspace c then EmptyString else String c EmptyString
      | kept => String c kept
      end
  end.

(** [s.strip()] *)
Definition strip (s : string) : string := rstrip (lstrip s).

(** [s.split(sep)] for a one-character separator. *)
Fixpoint split (sep : ascii) (s : string) : list string :=
  match s with
  | EmptyString => [EmptyString]
  | String c rest =>
      if Ascii.eqb c sep then EmptyString :: split sep rest
      else match split sep rest with
           | field :: fields => String c field :: fields
           | [] => [String c EmptyString]
           end
  end.

(** [s.split(sep, 1)] when [sep in s]; [None] when [sep not in s]. *)
Fixpoint split_once (sep : ascii) (s : string) : option (string * string) :=
  match s with
  | EmptyString => None
  | String c rest =>
      if Ascii.eqb c sep then Some (EmptyString, rest)
      else match split_once sep rest with
           | Some (before, after) => Some (String c before, after)
           | None => None
           end
  end.

(** [s.startswith(p)] *)
Definition startswith (s p : string) : bool := String.prefix p s.

(** [x in xs] for a list of [str]. *)
Definition contains (x : string) (xs : list string) : bool :=
  existsb (String.eqb x) xs.

Definition newline : ascii := ascii_of_nat 10.
Definition pipe : ascii := ascii_of_nat 124.

(** [urllib.parse.quote(s, safe='/')]: letters, digits, [_.-~] and [/]
    are kept, every other byte becomes [%XX]. *)
Definition unreserved (c : ascii) : bool :=
  let n := nat_of_ascii c in
  ((65 <=? n)%nat && (n <=? 90)%nat) || ((97 <=? n)%nat && (n <=? 122)%nat)
  || ((48 <=? n)%nat && (n <=? 57)%nat)
  || (n =? 95)%nat || (n =? 46)%nat || (n =? 45)%nat || (n =? 126)%nat.

Definition hexdigit (n : nat) : ascii :=
  if (n <? 10)%nat then ascii_of_nat (48 + n) else ascii_of_nat (55 + n).

Fixpoint quote (s : string) : string :=
  match s with
  | EmptyString => EmptyString
  | String c rest =>
      let n := nat_of_ascii c in
      if unreserved c || (n =? 47)%nat then String c (quote rest)
      else String "%" (String (hexdigit (n / 16)) (String (hexdigit (n mod 16)) (quote rest)))
  end.

(** [c in s] for a one-character [c]. *)
Fixpoint has_char (c : ascii) (s : string) : bool :=
  match s with
  | EmptyString => false
  | String x rest => Ascii.eqb x c || has_char c rest
  end.

Definition slash : ascii := ascii_of_nat 47.

(** [os.path.basename(p)], that is [p[p.rfind('/') + 1:]]: the piece after
    the last slash, the whole of [p] when it has none. *)
Definition basename (p : string) : string := List.last (split slash p) EmptyString.

End PyStr.

(** ** Collaborators: process helpers, OS scripting, file system *)
Module Sys.

(** [subprocess.CompletedProcess], as far as the drivers read it. *)
Record CompletedProcess := { returncode : Z; stdout : string }.

(** A call either returns a value or raises an exception. *)
Inductive Outcome (A : Type) : Type :=
| Returned (a : A)
| Raised.
Arguments Returned {A} a.
Arguments Raised {A}.

(** The two script texts the editor driver builds.  Each is an f-string
    with the holes [app_name] and [target_url]; a constructor stands for
    the text with its two holes filled. *)
Inductive AppleScript :=
| window_exists_script (app_name target_url : string)
| activate_window_script (app_name target_url : string).

(** The process helpers of [automate_terminal.utils] and how they were
    called. *)
Inductive Invocation :=
| CallR (cmd : list string)
| CallRW (cmd : list string) (dry_run : bool)
| CallPlain (cmd : list string) (timeout : Z).

Inductive Event :=
| Spawn (c : Invocation) (o : Outcome CompletedProcess)
| OsaScript (s : AppleScript) (o : Outcome (option string)).

(** Everything outside the drivers.  The answers of the process layer and
    of the scripting host may depend on what has been called before. *)
Record World := {
  environ : gmap string string;
  subprocess : list Event -> list string -> Outcome CompletedProcess;
  osascript : list Event -> AppleScript -> Outcome (option string);
  resolve : string -> string;       (* str(Path(p).resolve()), where it returns:
                                       a path on which it raises is outside
                                       the worlds modelled here *)
  path_exists : string -> bool;     (* Path(p).exists() *)
  which : string -> option string   (* shutil.which(name) *)
}.

(** Computations that read the world, extend the event log and may raise. *)
Definition M (A : Type) : Type := World -> list Event -> Outcome A * list Event.

Definition ret {A} (a : A) : M A := fun _ log => (Returned a, log).

Definition bind {A B} (m : M A) (k : A -> M B) : M B :=
  fun w log =>
    match m w log with
    | (Returned a, log') => k a w log'
    | (Raised, log') => (Raised, log')
    end.

(** [try: body except Exception: handler] *)
Definition try_except {A} (body handler : M A) : M A :=
  fun w log =>
    match body w log with
    | (Raised, log') => handler w log'
    | done => done
    end.

Definition run {A} (m : M A) (w : World) : Outcome A * list Event := m w [].

(** Appending to the event log. *)
Definition logged (log : list Event) (e : Event) : list Event := (log ++ [e])%list.

(** [os.getenv(name)] *)
Definition getenv (name : string) : M (option string) :=
  fun w log => (Returned (environ w !! name), log).

Definition path_resolve (p : string) : M string :=
  fun w log => (Returned (resolve w p), log).

Definition path_exists_ (p : string) : M bool :=
  fun w log => (Returned (path_exists w p), log).

Definition shutil_which (name : string) : M (option string) :=
  fun w log => (Returned (which w name), log).

(** [run_command_r(cmd)]: a read-only query; always executed. *)
Definition run_command_r (cmd : list string) : M CompletedProcess :=
  fun w log =>
    let o := subprocess w log cmd in (o, logged log (Spawn (CallR cmd) o)).

(** What a dry run hands back instead of a process result. *)
Definition dry_run_result : CompletedProcess := {| returncode := 0; stdout := "" |}.

(** Modelled from the spec: [run_command_rw] of [automate_terminal.utils],
    which is not among the sources.  Given an argument vector and a dry-run
    flag it performs the action unless dry-run is set, in which case it
    performs no external effect but returns a success-shaped result.  The
    invocation is logged either way, with its flag. *)
Definition run_command_rw (cmd : list string) (dry_run : bool) : M CompletedProcess :=
  fun w log =>
    let o := if dry_run then Returned dry_run_result else subprocess w log cmd in
    (o, logged log (Spawn (CallRW cmd dry_run) o)).

(** [run_command(cmd, timeout=t)]: the plain helper, which takes no dry-run
    flag. *)
Definition run_command (cmd : list string) (timeout : Z) : M CompletedProcess :=
  fun w log =>
    let o := subprocess w log cmd in (o, logged log (Spawn (CallPlain cmd timeout) o)).

(** [applescript.execute_with_result(script)] *)
Definition execute_with_result (script : AppleScript) : M (option string) :=
  fun w log =>
    let o := osascript w log script in (o, logged log (OsaScript script o)).

(** *** Reading the event log *)

Definition invocation_of (e : Event) : option Invocation :=
  match e with Spawn c _ => Some c | OsaScript _ _ => None end.

(** A step succeeded: the helper returned exit status 0. *)
Definition succeeded (e : Event) : bool :=
  match e with
  | Spawn _ (Returned p) => returncode p =? 0
  | Spawn _ Raised => false
  | OsaScript _ (Returned _) => true
  | OsaScript _ Raised => false
  end.



End Sys.

Notation "'let*' x ':=' m 'in' k" := (Sys.bind m (fun x => k))
  (at level 10, x name, m at level 100, k at level 200).

(** ** The driver contract: [BaseTerminal] *)
Module Base.
Import Sys.

(** [automate_terminal.models.Capabilities]: eight independent flags. *)
Record Capabilities := {
  can_create_tabs : bool;
  can_create_windows : bool;
  can_list_sessions : bool;
  can_switch_to_session : bool;
  can_detect_session_id : bool;
  can_detect_working_directory : bool;
  can_paste_commands : bool;
  can_run_in_active_session : bool
}.

(** The eight private predicates a driver class may override. *)
Class CapabilityPredicates (Self : Type) := {
  _can_create_tabs : Self -> bool;
  _can_create_windows : Self -> bool;
  _can_list_sessions : Self -> bool;
  _can_switch_to_session : Self -> bool;
  _can_detect_session_id : Self -> bool;
  _can_detect_working_directory : Self -> bool;
  _can_paste_commands : Self -> bool;
  _can_run_in_active_session : Self -> bool
}.

(** The bodies [BaseTerminal] gives them: a class that overrides none
    inherits this table. *)
Definition inherited (Self : Type) : CapabilityPredicates Self := {|
  _can_create_tabs := fun _ => false;
  _can_create_windows := fun _ => false;
  _can_list_sessions := fun _ => false;
  _can_switch_to_session := fun _ => false;
  _can_detect_session_id := fun _ => false;
  _can_detect_working_directory := fun _ => false;
  _can_paste_commands := fun _ => false;
  _can_run_in_active_session := fun _ => false
|}.

(** [BaseTerminal.get_capabilities], dispatching on the class of [self]. *)
Definition get_capabilities {Self} `{CapabilityPredicates Self} (self : Self) : Capabilities := {|
  can_create_tabs := _can_create_tabs self;
  can_create_windows := _can_create_windows self;
  can_list_sessions := _can_list_sessions self;
  can_switch_to_session := _can_switch_to_session self;
  can_detect_session_id := _can_detect_session_id self;
  can_detect_working_directory := _can_detect_working_directory self;
  can_paste_commands := _can_paste_commands self;
  can_run_in_active_session := _can_run_in_active_session self
|}.

Definition all_flags (b : bool) : Capabilities := {|
  can_create_tabs := b;
  can_create_windows := b;
  can_list_sessions := b;
  can_switch_to_session := b;
  can_detect_session_id := b;
  can_detect_working_directory := b;
  can_paste_commands := b;
  can_run_in_active_session := b
|}.

(** The services a driver is constructed with. *)
Record AppleScriptService := { is_macos : bool }.
Record CommandService := { dry_run : bool }.

(** Query defaults of [BaseTerminal]. *)
Definition supports_session_management {Self} (self : Self) : bool := false.
Definition session_exists {Self} (self : Self) (session_id : string) : M bool := ret false.
Definition session_in_directory {Self} (self : Self) (session_id directory : string) : M bool :=
  ret false.
Definition find_session_by_working_directory {Self} (self : Self)
    (target_path : string) (subdirectory_ok : bool) : M (option string) := ret None.
Definition run_in_active_session {Self} (self : Self) (command : string) : M bool := ret false.

(** A driver class that implements the abstract methods and overrides
    nothing else. *)
Record MinimalTerminal := { minimal_applescript : AppleScriptService }.
#[global] Instance MinimalTerminal_predicates : CapabilityPredicates MinimalTerminal :=
  inherited MinimalTerminal.

(** More defaults of [BaseTerminal]. *)
Definition switch_to_session_by_working_directory {Self} (self : Self)
    (working_directory : string) (session_init_script : option string) : M bool := ret false.

(** [list_sessions] yields a list of dicts; the default list is empty,
    whatever the element type. *)
Definition list_sessions {Self A} (self : Self) : M (list A) := ret [].

(** [get_shell_name]: the last path component of [$SHELL]. *)
Definition get_shell_name {Self} (self : Self) : M (option string) :=
  let* shell_path := getenv "SHELL" in
  let shell_path := default EmptyString shell_path in
  if PyStr.truthy shell_path then ret (Some (PyStr.basename shell_path)) else ret None.

End Base.

(** ** The multiplexer driver: [TmuxTerminal] *)
Module Tmux.
Import Sys PyStr.

Record TmuxTerminal := {
  applescript : Base.AppleScriptService;
  command_service : Base.CommandService
}.

(** One entry of [list_sessions]: a dict with these two keys. *)
Record Session := { session_id : string; working_directory : string }.

Definition detect (self : TmuxTerminal) (term_program : option string)
    (platform_name : string) : M bool :=
  let* marker := getenv "TMUX" in
  ret (match marker with Some _ => true | None => false end).

Definition get_current_session_id (self : TmuxTerminal) : M (option string) :=
  getenv "TMUX_PANE".

Definition supports_session_management (self : TmuxTerminal) : bool := true.

Definition session_exists (self : TmuxTerminal) (session_id : string) : M bool :=
  if negb (truthy session_id) then ret false
  else
    try_except
      (let* result := run_command_r ["tmux"; "list-panes"; "-a"; "-F"; "#{pane_id}"] in
       if (returncode result =? 0) && truthy (stdout result) then
         let pane_ids := map strip (split newline (strip (stdout result))) in
         ret (contains session_id pane_ids)
       else ret false)
      (ret false).

(** [directory] is the [Path] argument as [str(directory)] renders it. *)
Definition session_in_directory (self : TmuxTerminal) (session_id directory : string) : M bool :=
  if negb (truthy session_id) then ret false
  else
    try_except
      (let* result :=
         run_command_r ["tmux"; "display-message"; "-p"; "-t"; session_id; "-F";
                        "#{pane_current_path}"] in
       if (returncode result =? 0) && truthy (stdout result) then
         let pane_path := strip (stdout result) in
         ret (String.eqb pane_path directory)
       else ret false)
      (ret false).

Definition window_query (session_id : string) : list string :=
  ["tmux"; "display-message"; "-p"; "-t"; session_id; "-F"; "#{window_id}"].
Definition select_window (window_id : string) : list string :=
  ["tmux"; "select-window"; "-t"; window_id].
Definition select_pane (session_id : string) : list string :=
  ["tmux"; "select-pane"; "-t"; session_id].
Definition send_keys (target keys : string) : list string :=
  ["tmux"; "send-keys"; "-t"; target; keys; "Enter"].

Definition switch_to_session (self : TmuxTerminal) (session_id : string)
    (session_init_script : option string) : M bool :=
  try_except
    (let* window_result := run_command_r (window_query session_id) in
     if negb (returncode window_result =? 0) then ret false
     else
       let window_id := strip (stdout window_result) in
       let* select_window_result :=
         run_command_rw (select_window window_id) (Base.dry_run (command_service self)) in
       if negb (returncode select_window_result =? 0) then ret false
       else
         let* result :=
           run_command_rw (select_pane session_id) (Base.dry_run (command_service self)) in
         if negb (returncode result =? 0) then ret false
         else
           match session_init_script with
           | Some script =>
               if truthy script then
                 let* send_result :=
                   run_command_rw (send_keys session_id script)
                                  (Base.dry_run (command_service self)) in
                 ret (returncode send_result =? 0)
               else ret true
           | None => ret true
           end)
    (ret false).

Definition new_window_cmd (working_directory : string)
    (session_init_script : option string) : list string :=
  let cmd := ["tmux"; "new-window"; "-c"; working_directory] in
  match session_init_script with
  | Some script => if truthy script then (cmd ++ [script])%list else cmd
  | None => cmd
  end.

Definition open_new_tab (self : TmuxTerminal) (working_directory : string)
    (session_init_script : option string) : M bool :=
  try_except
    (let* result :=
       run_command_rw (new_window_cmd working_directory session_init_script)
                      (Base.dry_run (command_service self)) in
     ret (returncode result =? 0))
    (ret false).

Definition new_session_cmd (working_directory : string) : list string :=
  ["tmux"; "new-session"; "-d"; "-c"; working_directory].
Definition session_query : list string :=
  ["tmux"; "display-message"; "-p"; "-t"; "#{session_id}"].

Definition open_new_window (self : TmuxTerminal) (working_directory : string)
    (session_init_script : option string) : M bool :=
  try_except
    (let* result :=
       run_command_rw (new_session_cmd working_directory)
                      (Base.dry_run (command_service self)) in
     if negb (returncode result =? 0) then ret false
     else
       match session_init_script with
       | Some script =>
           if truthy script then
             let* session_result := run_command_r session_query in
             if (returncode session_result =? 0) && truthy (stdout session_result) then
               let session_id := strip (stdout session_result) in
               let* _ignored :=
                 run_command_rw (send_keys session_id script)
                                (Base.dry_run (command_service self)) in
               ret true
             else ret true
           else ret true
       | None => ret true
       end)
    (ret false).

(** One line of the pane listing, after [line.strip()]. *)
Definition parse_line (line : string) : option Session :=
  let line := strip line in
  if truthy line then
    match split_once pipe line with
    | Some (pane_id, path) =>
        Some {| session_id := strip pane_id; working_directory := strip path |}
    | None => None
    end
  else None.

Definition list_sessions (self : TmuxTerminal) : M (list Session) :=
  try_except
    (let* result :=
       run_command_r ["tmux"; "list-panes"; "-a"; "-F"; "#{pane_id}|#{pane_current_path}"] in
     if negb (returncode result =? 0) || negb (truthy (stdout result)) then ret []
     else ret (omap parse_line (split newline (strip (stdout result)))))
    (ret []).

(** First loop of [find_session_by_working_directory]. *)
Fixpoint exact_pass (target_path : string) (sessions : list Session) : M (option string) :=
  match sessions with
  | [] => ret None
  | session :: rest =>
      let* session_path := path_resolve (working_directory session) in
      if String.eqb session_path target_path then ret (Some (session_id session))
      else exact_pass target_path rest
  end.

(** Second loop. *)
Fixpoint subdirectory_pass (target_path : string) (sessions : list Session)
    : M (option string) :=
  match sessions with
  | [] => ret None
  | session :: rest =>
      let* session_path := path_resolve (working_directory session) in
      if startswith session_path (target_path ++ "/") then ret (Some (session_id session))
      else subdirectory_pass target_path rest
  end.

Definition find_session_by_working_directory (self : TmuxTerminal)
    (target_path : string) (subdirectory_ok : bool) : M (option string) :=
  let* sessions := list_sessions self in
  let* target_path := path_resolve target_path in
  let* exact := exact_pass target_path sessions in
  match exact with
  | Some found => ret (Some found)
  | None =>
      if subdirectory_ok then subdirectory_pass target_path sessions
      else ret None
  end.

#[global] Instance TmuxTerminal_predicates : Base.CapabilityPredicates TmuxTerminal := {|
  Base._can_create_tabs := fun _ => true;
  Base._can_create_windows := fun _ => true;
  Base._can_list_sessions := fun _ => true;
  Base._can_switch_to_session := fun _ => true;
  Base._can_detect_session_id := fun _ => true;
  Base._can_detect_working_directory := fun _ => true;
  Base._can_paste_commands := fun _ => true;
  Base._can_run_in_active_session := fun _ => true
|}.

Definition run_in_active_session (self : TmuxTerminal) (command : string) : M bool :=
  let* current_pane := get_current_session_id self in
  match current_pane with
  | Some pane =>
      if truthy pane then
        try_except
          (let* result :=
             run_command_rw (send_keys pane command) (Base.dry_run (command_service self)) in
           ret (returncode result =? 0))
          (ret false)
      else ret false
  | None => ret false
  end.

End Tmux.

(** ** The editor driver: [VSCodeTerminal] *)
Module VSCode.
Import Sys PyStr.

(** [VSCodeVariant = Literal["vscode", "cursor"]] *)
Inductive VSCodeVariant := vscode | cursor.

Record VSCodeTerminal := {
  applescript : Base.AppleScriptService;
  variant : VSCodeVariant
}.

Definition cli_command (self : VSCodeTerminal) : string :=
  match variant self with vscode => "code" | cursor => "cursor" end.

Definition app_names (self : VSCodeTerminal) : list string :=
  match variant self with
  | vscode => ["Code"; "Visual Studio Code"]
  | cursor => ["Cursor"]
  end.

Definition display_name (self : VSCodeTerminal) : string :=
  match variant self with vscode => "VSCode" | cursor => "Cursor" end.

Definition detect (self : VSCodeTerminal) (term_program : option string)
    (platform_name : string) : M bool :=
  if negb (bool_decide (term_program = Some "vscode")) then ret false
  else
    let* trace_id := getenv "CURSOR_TRACE_ID" in
    let has_cursor_id := truthy_opt trace_id in
    match variant self with
    | vscode => ret (negb has_cursor_id)
    | cursor => ret has_cursor_id
    end.

Definition _is_cli_available (self : VSCodeTerminal) : M bool :=
  let* found := shutil_which (cli_command self) in
  ret (match found with Some _ => true | None => false end).

Definition get_current_session_id (self : VSCodeTerminal) : M (option string) := ret None.

Definition supports_session_management (self : VSCodeTerminal) : bool :=
  Base.is_macos (applescript self).

Definition _path_to_file_url (self : VSCodeTerminal) (path : string) : M string :=
  let* path := path_resolve path in
  ret ("file://" ++ quote path).

(** [result == "true"] *)
Definition is_true (result : option string) : bool :=
  bool_decide (result = Some "true").

(** The loop over [app_names], running one script per process name until
    one answers ["true"]. *)
Fixpoint first_app (script : string -> AppleScript) (names : list string) : M bool :=
  match names with
  | [] => ret false
  | app_name :: rest =>
      let* result := execute_with_result (script app_name) in
      if is_true result then ret true else first_app script rest
  end.

Definition _find_window_with_path (self : VSCodeTerminal) (workspace_path : string) : M bool :=
  if negb (Base.is_macos (applescript self)) then ret false
  else
    let* target_url := _path_to_file_url self workspace_path in
    first_app (fun app_name => activate_window_script app_name target_url) (app_names self).

Definition session_exists (self : VSCodeTerminal) (session_id : string) : M bool :=
  if negb (Base.is_macos (applescript self)) then ret false
  else
    try_except
      (let* present := path_exists_ session_id in
       if negb present then ret false
       else
         let* target_url := _path_to_file_url self session_id in
         first_app (fun app_name => window_exists_script app_name target_url) (app_names self))
      (ret false).

Definition find_session_by_working_directory (self : VSCodeTerminal)
    (target_path : string) (subdirectory_ok : bool) : M (option string) :=
  let* found := session_exists self target_path in
  if found then ret (Some target_path) else ret None.

Definition switch_to_session (self : VSCodeTerminal) (session_id : string)
    (session_init_script : option string) : M bool :=
  if negb (Base.is_macos (applescript self)) then ret false
  else try_except (_find_window_with_path self session_id) (ret false).

Definition open_new_tab (self : VSCodeTerminal) (working_directory : string)
    (session_init_script : option string) : M bool := ret false.

Definition open_new_window (self : VSCodeTerminal) (working_directory : string)
    (session_init_script : option string) : M bool :=
  let* available := _is_cli_available self in
  if negb available then ret false
  else
    try_except
      (let* result := run_command [cli_command self; "-n"; working_directory] 10 in
       ret (returncode result =? 0))
      (ret false).

(** Six predicates are overridden; the other two are inherited. *)
#[global] Instance VSCodeTerminal_predicates : Base.CapabilityPredicates VSCodeTerminal := {|
  Base._can_create_tabs := fun _ => false;
  Base._can_create_windows := fun _ => true;
  Base._can_list_sessions := fun _ => false;
  Base._can_switch_to_session := fun self => Base.is_macos (applescript self);
  Base._can_detect_session_id := fun _ => false;
  Base._can_detect_working_directory :=
    Base._can_detect_working_directory (CapabilityPredicates := Base.inherited VSCodeTerminal);
  Base._can_paste_commands := fun _ => false;
  Base._can_run_in_active_session :=
    Base._can_run_in_active_session (CapabilityPredicates := Base.inherited VSCodeTerminal)
|}.

(** What [VSCodeTerminal] inherits unchanged from [BaseTerminal]. *)
Definition session_in_directory (self : VSCodeTerminal) (session_id directory : string) : M bool :=
  Base.session_in_directory self session_id directory.
Definition list_sessions (self : VSCodeTerminal) : M (list (string * string)) :=
  Base.list_sessions self.
Definition run_in_active_session (self : VSCodeTerminal) (command : string) : M bool :=
  Base.run_in_active_session self command.

End VSCode.

(** ** Worlds for examples *)
Module Demo.
Import Sys.

Definition ok (out : string) : Outcome CompletedProcess :=
  Returned {| returncode := 0; stdout := out |}.
Definition failed (status : Z) : Outcome CompletedProcess :=
  Returned {| returncode := status; stdout := EmptyString |}.

(** A world given by its environment, its process layer and its path
    normalization; the scripting host answers nothing, every path exists
    and every launcher is installed. *)
Definition world_of (env : gmap string string)
    (proc : list Event -> list string -> Outcome CompletedProcess)
    (norm : string -> string) : World := {|
  environ := env;
  subprocess := proc;
  osascript := fun _ _ => Returned None;
  resolve := norm;
  path_exists := fun _ => true;
  which := fun name => Some ("/usr/local/bin/" ++ name)
|}.

(** The tmux subcommand of an argument vector. *)
Definition subcommand (cmd : list string) : string :=
  match cmd with _ :: sub :: _ => sub | _ => EmptyString end.

Definition tmux (self_dry_run : bool) : Tmux.TmuxTerminal := {|
  Tmux.applescript := {| Base.is_macos := false |};
  Tmux.command_service := {| Base.dry_run := self_dry_run |}
|}.

Definition editor (v : VSCode.VSCodeVariant) (macos : bool) : VSCode.VSCodeTerminal := {|
  VSCode.applescript := {| Base.is_macos := macos |};
  VSCode.variant := v
|}.

(** Every process succeeds; identifier queries answer ["@1"]. *)
Definition all_ok : World :=
  world_of ∅ (fun _ _ => ok "@1") (fun p => p).

(** Every process exits with status 1. *)
Definition all_fail : World :=
  world_of ∅ (fun _ _ => failed 1) (fun p => p).

(** Only [display-message] queries fail. *)
Definition query_fails : World :=
  world_of ∅
    (fun _ cmd => if String.eqb (subcommand cmd) "display-message" then failed 1 else ok EmptyString)
    (fun p => p).

(** [display-message] queries raise; everything else succeeds. *)
Definition query_raises : World :=
  world_of ∅
    (fun _ cmd => if String.eqb (subcommand cmd) "display-message" then Raised else ok EmptyString)
    (fun p => p).

(** Only [select-window] fails. *)
Definition select_window_fails : World :=
  world_of ∅
    (fun _ cmd => if String.eqb (subcommand cmd) "select-window" then failed 1 else ok "@1")
    (fun p => p).

Definition nl : string := String PyStr.newline EmptyString.

(** The pane listing of two panes, one below the other's directory. *)
Definition two_panes : World :=
  world_of ∅
    (fun _ _ => ok ("%0|/home/u/proj" ++ nl ++ "%1|/home/u/proj/sub" ++ nl))
    (fun p => p).

(** A file system where [/var] is a symbolic link to [/private/var]. *)
Definition var_symlink (p : string) : string :=
  if PyStr.startswith p "/var/" then "/private" ++ p else p.

(** A pane whose current path is reported as [/private/var/proj]. *)
Definition pane_in_private_var : World :=
  world_of ∅ (fun _ _ => ok ("/private/var/proj" ++ nl)) var_symlink.

(** An environment with the secondary editor marker set to the empty
    string. *)
Definition empty_trace_id : World :=
  world_of {[ "CURSOR_TRACE_ID" := EmptyString ]} (fun _ _ => failed 1) (fun p => p).

(** [/bin/zsh] as the login shell. *)
Definition zsh_shell : World :=
  world_of {[ "SHELL" := "/bin/zsh" ]} (fun _ _ => failed 1) (fun p => p).

(** Inside tmux, in pane [%3]. *)
Definition in_pane : World :=
  world_of {[ "TMUX_PANE" := "%3" ]} (fun _ _ => ok EmptyString) (fun p => p).

(** The scripting host answers ["true"] for the process ["Visual Studio
    Code"] only. *)
Definition second_app_answers : World := {|
  environ := ∅;
  subprocess := fun _ _ => failed 1;
  osascript := fun _ script =>
    match script with
    | window_exists_script app _ | activate_window_script app _ =>
        if String.eqb app "Visual Studio Code" then Returned (Some "true")
        else Returned (Some "false")
    end;
  resolve := fun p => p;
  path_exists := fun _ => true;
  which := fun _ => None
|}.

End Demo.

(** ** What the window scripts compute *)
Module Host.
Import Sys PyStr.

(** The desktop as System Events shows it: for each running process, by
    name, the [AXDocument] attribute of each of its windows ([None] for a
    window without that attribute). *)
Definition Desktop : Type := list (string * list (option string)).

(** The test both scripts apply to a window: [docPath starts with
    targetURL or targetURL starts with docPath]; a window without the
    attribute is skipped.  AppleScript compares text ignoring case, so it
    accepts every window accepted here and possibly more. *)
Definition window_matches (target_url : string) (document : option string) : bool :=
  match document with
  | Some doc_path => startswith doc_path target_url || startswith target_url doc_path
  | None => false
  end.

Definition windows_of (desktop : Desktop) (app_name : string) : option (list (option string)) :=
  snd <$> find (fun process => String.eqb (fst process) app_name) desktop.

(** The value either script returns: [false] when the process does not
    exist or no window matches, [true] at the first window that does. *)
Definition script_result (desktop : Desktop) (script : AppleScript) : option string :=
  match script with
  | window_exists_script app_name target_url
  | activate_window_script app_name target_url =>
      match windows_of desktop app_name with
      | Some windows =>
          if existsb (window_matches target_url) windows then Some "true" else Some "false"
      | None => Some "false"
      end
  end.

(** A world with that desktop: every path exists and is normal, no
    process helper is installed. *)
Definition world (desktop : Desktop) : World := {|
  environ := ∅;
  subprocess := fun _ _ => Raised;
  osascript := fun _ script => Returned (script_result desktop script);
  resolve := fun p => p;
  path_exists := fun _ => true;
  which := fun _ => None
|}.

End Host.

(** ** Vocabulary for call sequences *)
Module Protocol.
Import Sys PyStr.

(** The helper invocations of a log, in order. *)
Definition calls (log : list Event) : list Invocation := omap invocation_of log.




Definition is_send_keys (e : Event) : bool :=
  match e with
  | Spawn (CallRW ("tmux" :: "send-keys" :: _) _) _ => true
  | _ => false
  end.

(** [s] is the first element of [l] that satisfies [P]. *)
Definition first_such {A} (P : A -> Prop) (l : list A) (s : A) : Prop :=
  exists before after, l = (before ++ s :: after)%list /\ P s /\ Forall (fun x => ~ P x) before.

(** The identifier of the first session that passes [test]. *)
Definition first_match (test : Tmux.Session -> bool) (sessions : list Tmux.Session)
    : option string :=
  Tmux.session_id <$> find test sessions.

(** The session's normalized path equals the normalized target. *)
Definition same_directory (w : World) (target : string) (s : Tmux.Session) : Prop :=
  resolve w (Tmux.working_directory s) = resolve w target.

(** The session's normalized path starts with the normalized target plus
    a path separator. *)
Definition below_directory (w : World) (target : string) (s : Tmux.Session) : Prop :=
  startswith (resolve w (Tmux.working_directory s)) (resolve w target ++ "/") = true.


Definition listing_query : list string :=
  ["tmux"; "list-panes"; "-a"; "-F"; "#{pane_id}|#{pane_current_path}"].

(** The tests of the two loops, on normalized paths. *)
Definition exact_test (w : World) (target : string) (s : Tmux.Session) : bool :=
  String.eqb (resolve w (Tmux.working_directory s)) (resolve w target).
Definition below_test (w : World) (target : string) (s : Tmux.Session) : bool :=
  startswith (resolve w (Tmux.working_directory s)) (resolve w target ++ "/").

(** The query of [session_exists]. *)
Definition pane_query : list string := ["tmux"; "list-panes"; "-a"; "-F"; "#{pane_id}"].



(** The argument vector of an invocation, without flag or timeout. *)
Definition command_of (c : Invocation) : list string :=
  match c with CallR cmd | CallRW cmd _ | CallPlain cmd _ => cmd end.

(** A string [strip] leaves alone. *)
Definition trimmed (s : string) : Prop := strip s = s.

(** The listing tmux prints for a list of panes: one
    [pane_id|pane_current_path] line each. *)
Fixpoint render_listing (sessions : list Tmux.Session) : string :=
  match sessions with
  | [] => EmptyString
  | s :: rest =>
      Tmux.session_id s ++ String pipe (Tmux.working_directory s)
      ++ String newline (render_listing rest)
  end.

(** One line of a listing, and lines joined by newlines. *)
Definition listing_line (s : Tmux.Session) : string :=
  Tmux.session_id s ++ String pipe (Tmux.working_directory s).

Fixpoint join_lines (lines : list string) : string :=
  match lines with
  | [] => EmptyString
  | [line] => line
  | line :: rest => line ++ String newline (join_lines rest)
  end.

(** A pane a listing line can carry as it is: both fields trimmed and
    free of newlines, no pipe in the identifier. *)
Definition plain_session (s : Tmux.Session) : Prop :=
  trimmed (Tmux.session_id s) /\ trimmed (Tmux.working_directory s)
  /\ has_char newline (Tmux.session_id s) = false
  /\ has_char newline (Tmux.working_directory s) = false
  /\ has_char pipe (Tmux.session_id s) = false.

(** Every byte is ASCII, so that white space is what [isspace] says. *)
Fixpoint all_ascii (s : string) : bool :=
  match s with
  | EmptyString => true
  | String c rest => (nat_of_ascii c <? 128)%nat && all_ascii rest
  end.

Definition ascii_session (s : Tmux.Session) : Prop :=
  all_ascii (Tmux.session_id s) = true /\ all_ascii (Tmux.working_directory s) = true.

(** The characters [quote] keeps as they are. *)
Definition kept (c : ascii) : bool := unreserved c || (nat_of_ascii c =? 47)%nat.

(** The characters a quoted string is made of. *)
Definition url_char (c : ascii) : bool := kept c || (nat_of_ascii c =? 37)%nat.

(** The byte two hexadecimal digits stand for. *)
Definition hexval (c : ascii) : nat :=
  let n := nat_of_ascii c in if (n <? 58)%nat then (n - 48)%nat else (n - 55)%nat.
Definition unhex (hi lo : ascii) : ascii := ascii_of_nat (16 * hexval hi + hexval lo).

End Protocol.

(** ** Proof steps shared by the call-sequence theorems *)

Import Sys PyStr Protocol.

Ltac unfold_m :=
  unfold run, try_except, bind, ret, run_command_r, run_command_rw, run_command,
    execute_with_result, getenv, path_resolve, path_exists_, shutil_which, logged in *.

(** Use what is already known about an exit status. *)
Ltac known_status :=
  repeat match goal with
         | H : Z.eqb ?rc 0 = _ |- context [Z.eqb ?rc 0] => rewrite H
         end.

Ltac settle :=
  cbn -[Z.eqb prefix]; change (0 =? 0) with true; known_status; cbn -[Z.eqb prefix].

(** Split on the next thing the outside decides: the dry-run flag, the
    answer of the process layer, an exit status. *)
Ltac ask_world :=
  match goal with
  | |- context [Base.dry_run ?c] =>
      let E := fresh "Hdry" in destruct (Base.dry_run c) eqn:E
  | |- context [subprocess ?w ?log ?cmd] =>
      let E := fresh "Hproc" in
      destruct (subprocess w log cmd) as [[? ?]|] eqn:E; cbn [returncode stdout]
  | |- context [Z.eqb ?rc 0] =>
      is_var rc; let E := fresh "Hrc" in destruct (Z.eqb rc 0) eqn:E
  end.

Ltac all_worlds := settle; repeat (ask_world; settle).


(** ** The multiplexer driver: switching *)
Section Switch.
Variable self : Tmux.TmuxTerminal.
Variable w : World.


End Switch.

(** ** The multiplexer driver: opening a detached session *)
Section OpenWindow.
Variable self : Tmux.TmuxTerminal.
Variable w : World.

(** [open_new_window] is two-phase.  The session-creation call comes
    first; if it fails the result is false and nothing else is called.
    If it succeeds and a script was supplied, the session-identifier
    query follows; if that query returns with a non-zero exit status or
    empty output, no key-send is issued and the result is still true.
    A query that raises is not covered here: see
    [open_new_window_query_raises]. *)
Theorem open_new_window_two_phase (working_directory : string) (script : option string) :
  let out := run (Tmux.open_new_window self working_directory script) w in
  let log := snd out in
  let dry := Base.dry_run (Tmux.command_service self) in
  head (calls log) = Some (CallRW (Tmux.new_session_cmd working_directory) dry)
  /\ (forall e, log !! 0%nat = Some e -> succeeded e = false ->
        fst out = Returned false /\ length log = 1%nat)
  /\ (forall e, log !! 0%nat = Some e -> succeeded e = true -> truthy_opt script = true ->
        calls log !! 1%nat = Some (CallR Tmux.session_query))
  /\ (forall e p, log !! 0%nat = Some e -> succeeded e = true -> truthy_opt script = true ->
        log !! 1%nat = Some (Spawn (CallR Tmux.session_query) (Returned p)) ->
        returncode p <> 0 \/ stdout p = EmptyString ->
        fst out = Returned true /\ existsb is_send_keys log = false /\ length log = 2%nat).
Proof.
  cbv zeta. unfold Tmux.open_new_window. unfold_m.
  destruct script as [[|c keys]|]; all_worlds;
    repeat match goal with
           | |- context [truthy ?s] => is_var s; destruct s; all_worlds
           end.
  all: split; [reflexivity|].
  all: repeat split; intros; cbn -[Z.eqb] in *; simplify_eq; cbn -[Z.eqb] in *;
    repeat match goal with
           | H : Z.eqb ?rc 0 = _, H' : context [Z.eqb ?rc 0] |- _ => rewrite H in H'
           end;
    try discriminate; try reflexivity.
  all: match goal with
       | H : _ <> 0 \/ _ = EmptyString |- _ =>
           destruct H as [H|H]; [|discriminate H]
       end.
  all: match goal with
       | H : Z.eqb _ 0 = true |- _ => apply Z.eqb_eq in H; contradiction
       end.
Qed.

End OpenWindow.

(** A worked instance: creation succeeds, the identifier query exits with
    status 1, the script is dropped and the result is true. *)
Lemma open_new_window_two_phase_witness :
  let out := run (Tmux.open_new_window (Demo.tmux false) "/w" (Some "ls")) Demo.query_fails in
  fst out = Returned true /\ existsb is_send_keys (snd out) = false
  /\ length (snd out) = 2%nat.
Proof.
  cbv zeta.
  destruct (open_new_window_two_phase (Demo.tmux false) Demo.query_fails "/w" (Some "ls"))
    as (_ & _ & _ & Hquery).
  eapply (Hquery _ {| returncode := 1; stdout := EmptyString |}).
  - reflexivity.
  - reflexivity.
  - reflexivity.
  - reflexivity.
  - left. cbn. lia.
Defined.

(** C2.  After a successful creation with a script, a session-identifier
    query that fails must leave the result true ("True if session creation
    succeeded", as the docstring has it, and as the code does when the
    query returns a non-zero status).  When the query fails by raising,
    the handler around the whole body reports false instead, although the
    session was created; no key-send is issued. *)
Theorem open_new_window_query_raises :
  run (Tmux.open_new_window (Demo.tmux false) "/w" (Some "ls")) Demo.query_raises
  = (Returned false,
     [Spawn (CallRW (Tmux.new_session_cmd "/w") false) (Demo.ok EmptyString);
      Spawn (CallR Tmux.session_query) Raised]).
Proof. reflexivity. Qed.


(** The call sequence of a successful switch with a script. *)
Example switch_to_session_all_ok :
  Protocol.calls (snd (run (Tmux.switch_to_session (Demo.tmux false) "%0" (Some "ls")) Demo.all_ok))
  = [CallR (Tmux.window_query "%0");
     CallRW (Tmux.select_window "@1") false;
     CallRW (Tmux.select_pane "%0") false;
     CallRW (Tmux.send_keys "%0" "ls") false].
Proof. reflexivity. Qed.

(** A failed window-select: no pane-select, no key-send, result false. *)
Example switch_to_session_select_window_fails :
  run (Tmux.switch_to_session (Demo.tmux false) "%0" (Some "ls")) Demo.select_window_fails
  = (Returned false,
     [Spawn (CallR (Tmux.window_query "%0")) (Demo.ok "@1");
      Spawn (CallRW (Tmux.select_window "@1") false) (Demo.failed 1)]).
Proof. reflexivity. Qed.

(** ** The multiplexer driver: finding a session by directory *)
Section Find.
Variable self : Tmux.TmuxTerminal.
Variable w : World.

Lemma exact_pass_run (target_path : string) (sessions : list Tmux.Session) (log : list Event) :
  Tmux.exact_pass target_path sessions w log
  = (Returned (first_match
                 (fun s => String.eqb (resolve w (Tmux.working_directory s)) target_path)
                 sessions), log).
Proof.
  induction sessions as [|s rest IH]; [reflexivity|].
  cbn. unfold bind, path_resolve, first_match. cbn.
  destruct (String.eqb _ _); [reflexivity|]. exact IH.
Qed.

Lemma subdirectory_pass_run (target_path : string) (sessions : list Tmux.Session)
    (log : list Event) :
  Tmux.subdirectory_pass target_path sessions w log
  = (Returned (first_match
                 (fun s => startswith (resolve w (Tmux.working_directory s)) (target_path ++ "/"))
                 sessions), log).
Proof.
  induction sessions as [|s rest IH]; [reflexivity|].
  cbn. unfold bind, path_resolve, first_match. cbn.
  destruct (startswith _ _); [reflexivity|]. exact IH.
Qed.

Lemma first_match_first (test : Tmux.Session -> bool) (sessions : list Tmux.Session)
    (s : Tmux.Session) :
  first_such (fun x => test x = true) sessions s ->
  first_match test sessions = Some (Tmux.session_id s).
Proof.
  intros (before & after & -> & Hs & Hbefore). unfold first_match.
  induction Hbefore as [|x before Hx _ IH]; cbn.
  - now rewrite Hs.
  - destruct (test x); [contradiction|]. exact IH.
Qed.

Lemma first_match_some (test : Tmux.Session -> bool) (sessions : list Tmux.Session)
    (found : string) :
  first_match test sessions = Some found ->
  exists s, found = Tmux.session_id s /\ first_such (fun x => test x = true) sessions s.
Proof.
  unfold first_match. induction sessions as [|x rest IH]; cbn; [discriminate|].
  destruct (test x) eqn:Hx.
  - intros [= <-]. exists x. split; [reflexivity|]. exists [], rest. auto.
  - intros Hrest. destruct (IH Hrest) as (s & -> & before & after & -> & Hs & Hbefore).
    exists s. split; [reflexivity|]. exists (x :: before), after.
    repeat split; [assumption|]. constructor; [congruence|assumption].
Qed.

Lemma first_match_none (test : Tmux.Session -> bool) (sessions : list Tmux.Session) :
  first_match test sessions = None <-> (forall s, s ∈ sessions -> test s = false).
Proof.
  unfold first_match. induction sessions as [|x rest IH]; cbn.
  - split; [|reflexivity]. intros _ s Hs. inversion Hs.
  - destruct (test x) eqn:Hx; cbn.
    + split; [discriminate|]. intros Hall. specialize (Hall x ltac:(left)). congruence.
    + rewrite IH. split.
      * intros Hall s Hs. inversion Hs; subst; auto.
      * intros Hall s Hs. apply Hall. now right.
Qed.

Lemma first_such_elem {A} (P : A -> Prop) (l : list A) (s : A) :
  first_such P l s -> s ∈ l /\ P s.
Proof.
  intros (before & after & -> & Hs & _). split; [|assumption].
  apply elem_of_app. right. left.
Qed.

Lemma list_sessions_returns : exists sessions, fst (run (Tmux.list_sessions self) w) = Returned sessions.
Proof.
  unfold Tmux.list_sessions. unfold_m.
  destruct (subprocess w [] _) as [[rc out]|]; cbn; [|eauto].
  destruct (negb (rc =? 0) || negb (truthy out)); cbn; eauto.
Qed.

Lemma first_such_ext {A} (P Q : A -> Prop) (l : list A) (s : A) :
  (forall x, P x <-> Q x) -> first_such P l s -> first_such Q l s.
Proof.
  intros HPQ (before & after & -> & Hs & Hbefore). exists before, after.
  repeat split; [now apply HPQ|].
  eapply Forall_impl; [exact Hbefore|]. intros x Hx HQ. apply Hx. now apply HPQ.
Qed.

Lemma exact_test_spec (target : string) (s : Tmux.Session) :
  exact_test w target s = true <-> same_directory w target s.
Proof. apply String.eqb_eq. Qed.

Lemma find_session_run (target : string) (subdirectory_ok : bool)
    (sessions : list Tmux.Session) :
  fst (run (Tmux.list_sessions self) w) = Returned sessions ->
  fst (run (Tmux.find_session_by_working_directory self target subdirectory_ok) w)
  = Returned (match first_match (exact_test w target) sessions with
              | Some found => Some found
              | None =>
                  if subdirectory_ok then first_match (below_test w target) sessions else None
              end).
Proof.
  unfold Tmux.find_session_by_working_directory, run, bind.
  destruct (Tmux.list_sessions self w []) as [o log]; cbn. intros ->.
  unfold path_resolve. rewrite exact_pass_run.
  fold (exact_test w target). destruct (first_match (exact_test w target) sessions); [reflexivity|].
  destruct subdirectory_ok; [|reflexivity].
  now rewrite subdirectory_pass_run.
Qed.

(** C3. [find_session_by_working_directory] first returns the first listed
    session whose normalized path equals the normalized target; in
    exact-match mode it returns a session exactly when such a session is
    listed; only without an exact match and with subdirectory matching
    permitted does it return the first session whose normalized path
    starts with the normalized target plus a separator.  A session at
    [/a/b/c] is below target [/a/b]; one at [/a/bc] is not. *)
Theorem find_session_two_pass (target : string) (subdirectory_ok : bool)
    (sessions : list Tmux.Session) :
  fst (run (Tmux.list_sessions self) w) = Returned sessions ->
  let found :=
    fst (run (Tmux.find_session_by_working_directory self target subdirectory_ok) w) in
  let no_exact := forall s, s ∈ sessions -> ~ same_directory w target s in
  (forall s, first_such (same_directory w target) sessions s ->
     found = Returned (Some (Tmux.session_id s)))
  /\ (subdirectory_ok = false ->
        (exists sid, found = Returned (Some sid))
        <-> (exists s, s ∈ sessions /\ same_directory w target s))
  /\ (no_exact -> subdirectory_ok = true ->
        forall s, first_such (below_directory w target) sessions s ->
          found = Returned (Some (Tmux.session_id s)))
  /\ (no_exact ->
        subdirectory_ok = false \/ (forall s, s ∈ sessions -> ~ below_directory w target s) ->
        found = Returned None)
  /\ (forall sid, found = Returned (Some sid) ->
        exists s, sid = Tmux.session_id s
          /\ (first_such (same_directory w target) sessions s
              \/ (subdirectory_ok = true /\ no_exact
                  /\ first_such (below_directory w target) sessions s)))
  /\ (forall s, resolve w target = "/a/b" ->
        (resolve w (Tmux.working_directory s) = "/a/b/c" -> below_directory w target s)
        /\ (resolve w (Tmux.working_directory s) = "/a/bc" ->
              ~ below_directory w target s /\ ~ same_directory w target s)).
Proof.
  intros Hlist. cbv zeta. rewrite (find_session_run _ _ _ Hlist).
  assert (Hnone : first_match (exact_test w target) sessions = None
                  <-> (forall s, s ∈ sessions -> ~ same_directory w target s)).
  { rewrite first_match_none. split; intros Hall s Hs.
    - rewrite <- exact_test_spec. rewrite (Hall s Hs). discriminate.
    - specialize (Hall s Hs). rewrite <- exact_test_spec in Hall.
      now destruct (exact_test w target s). }
  split; [|split; [|split; [|split; [|split]]]].
  - intros s Hs. erewrite first_match_first; [reflexivity|].
    eapply first_such_ext; [|exact Hs]. intros x. symmetry. apply exact_test_spec.
  - intros ->. split.
    + intros [sid Hsid].
      destruct (first_match (exact_test w target) sessions) as [found|] eqn:Hm; [|discriminate].
      destruct (first_match_some _ _ _ Hm) as (s & _ & Hfirst).
      apply first_such_elem in Hfirst as [Hin Htest].
      exists s. split; [assumption|]. now apply exact_test_spec.
    + intros (s & Hin & Hsame).
      destruct (first_match (exact_test w target) sessions) as [found|] eqn:Hm; [eauto|].
      destruct (proj1 Hnone eq_refl s Hin Hsame).
  - intros Hno -> s Hs. apply Hnone in Hno. rewrite Hno.
    erewrite first_match_first; [reflexivity|]. exact Hs.
  - intros Hno Hwhy. apply Hnone in Hno. rewrite Hno.
    destruct Hwhy as [->|Hnobelow]; [reflexivity|].
    destruct subdirectory_ok; [|reflexivity].
    f_equal. apply first_match_none. intros s Hs. specialize (Hnobelow s Hs).
    unfold below_directory in Hnobelow. unfold below_test.
    now destruct (startswith _ _).
  - intros sid Hfound.
    destruct (first_match (exact_test w target) sessions) as [found|] eqn:Hm.
    + injection Hfound as <-. destruct (first_match_some _ _ _ Hm) as (s & -> & Hfirst).
      exists s. split; [reflexivity|]. left.
      eapply first_such_ext; [|exact Hfirst]. intros x. apply exact_test_spec.
    + destruct subdirectory_ok; [|discriminate]. injection Hfound as Hb.
      destruct (first_match_some _ _ _ Hb) as (s & -> & Hfirst).
      exists s. split; [reflexivity|]. right. repeat split; [exact (proj1 Hnone eq_refl)|exact Hfirst].
  - intros s Ht. unfold below_directory, same_directory. rewrite Ht. split; intros ->.
    + reflexivity.
    + split; [discriminate|]. intros [=].
Qed.

End Find.

(** The listing of the two-pane scenario, and the lookups in it. *)
Lemma find_session_two_pass_witness :
  fst (run (Tmux.find_session_by_working_directory (Demo.tmux false) "/home/u/proj" false)
         Demo.two_panes) = Returned (Some "%0").
Proof.
  pose (listed := [ {| Tmux.session_id := "%0"; Tmux.working_directory := "/home/u/proj" |};
                    {| Tmux.session_id := "%1"; Tmux.working_directory := "/home/u/proj/sub" |} ]).
  destruct (find_session_two_pass (Demo.tmux false) Demo.two_panes "/home/u/proj" false listed)
    as (Hexact & _); [reflexivity|].
  apply (Hexact {| Tmux.session_id := "%0"; Tmux.working_directory := "/home/u/proj" |}).
  exists [], [ {| Tmux.session_id := "%1"; Tmux.working_directory := "/home/u/proj/sub" |} ].
  repeat split. constructor.
Defined.

Example find_session_subdirectory :
  fst (run (Tmux.find_session_by_working_directory (Demo.tmux false) "/home/u" true)
         Demo.two_panes) = Returned (Some "%0")
  /\ fst (run (Tmux.find_session_by_working_directory (Demo.tmux false) "/home/u" false)
            Demo.two_panes) = Returned None
  /\ fst (run (Tmux.find_session_by_working_directory (Demo.tmux false) "/home/u/pro" true)
            Demo.two_panes) = Returned None.
Proof. repeat split; vm_compute; reflexivity. Qed.

(** ** Dry-run mode *)


Section DryRun.
Variable self : Tmux.TmuxTerminal.
Variable w : World.

Lemma find_session_log (target : string) (subdirectory_ok : bool) :
  snd (run (Tmux.find_session_by_working_directory self target subdirectory_ok) w)
  = snd (run (Tmux.list_sessions self) w).
Proof.
  unfold Tmux.find_session_by_working_directory, run, bind.
  destruct (Tmux.list_sessions self w []) as [[sessions|] log]; cbn; [|reflexivity].
  unfold path_resolve. rewrite exact_pass_run.
  destruct (first_match _ sessions); [reflexivity|].
  destruct subdirectory_ok; [|reflexivity]. now rewrite subdirectory_pass_run.
Qed.



End DryRun.


Example dry_run_switch_log :
  run (Tmux.switch_to_session (Demo.tmux true) "%0" (Some "ls")) Demo.all_ok
  = (Returned true,
     [Spawn (CallR (Tmux.window_query "%0")) (Demo.ok "@1");
      Spawn (CallRW (Tmux.select_window "@1") true) (Returned dry_run_result);
      Spawn (CallRW (Tmux.select_pane "%0") true) (Returned dry_run_result);
      Spawn (CallRW (Tmux.send_keys "%0" "ls") true) (Returned dry_run_result)]).
Proof. reflexivity. Qed.

(** The editor driver has no dry-run flag: with the launcher on the search
    path, [open_new_window] always runs it. *)
Example editor_open_new_window_launches :
  run (VSCode.open_new_window (Demo.editor VSCode.vscode false) "/w" None) Demo.all_ok
  = (Returned true, [Spawn (CallPlain ["code"; "-n"; "/w"] 10) (Demo.ok "@1")]).
Proof. reflexivity. Qed.

(** ** Directory comparison *)

(** C5.  [session_in_directory] compares the pane's reported path with
    [str(directory)] as strings, without normalizing either.  Where [/var]
    is a symbolic link to [/private/var], a pane in [/private/var/proj] and
    the directory [/var/proj] normalize to the same path, yet the result is
    false. *)
Theorem session_in_directory_not_normalized :
  resolve Demo.pane_in_private_var "/var/proj"
  = resolve Demo.pane_in_private_var "/private/var/proj"
  /\ run (Tmux.session_in_directory (Demo.tmux false) "%0" "/var/proj") Demo.pane_in_private_var
     = (Returned false,
        [Spawn (CallR ["tmux"; "display-message"; "-p"; "-t"; "%0"; "-F"; "#{pane_current_path}"])
               (Demo.ok ("/private/var/proj" ++ Demo.nl))]).
Proof. split; reflexivity. Qed.

(** What [session_in_directory] does compare: the trimmed output of the
    query and the directory string, byte for byte. *)
Lemma session_in_directory_true (self : Tmux.TmuxTerminal) (w : World)
    (session_id directory : string) :
  fst (run (Tmux.session_in_directory self session_id directory) w) = Returned true ->
  exists p,
    subprocess w [] ["tmux"; "display-message"; "-p"; "-t"; session_id; "-F";
                     "#{pane_current_path}"] = Returned p
    /\ strip (stdout p) = directory.
Proof.
  unfold Tmux.session_in_directory. unfold_m.
  destruct (truthy session_id); cbn; [|discriminate].
  destruct (subprocess w [] _) as [[rc out]|]; cbn -[Z.eqb]; [|discriminate].
  destruct ((rc =? 0) && truthy out); cbn; [|discriminate].
  intros [= Heq]. apply String.eqb_eq in Heq. eauto.
Qed.

(** The sibling lookup normalizes both sides: in the same file system the
    pane is found from either spelling. *)
Example find_session_normalizes :
  fst (run (Tmux.find_session_by_working_directory (Demo.tmux false) "/var/proj" false)
         (Demo.world_of ∅ (fun _ _ => Demo.ok ("%0|/private/var/proj" ++ Demo.nl))
            Demo.var_symlink))
  = Returned (Some "%0").
Proof. vm_compute. reflexivity. Qed.

(** ** Empty identifiers *)

(** [session_exists] and [session_in_directory] reject an empty identifier
    before any call. *)
Lemma empty_identifier_rejected (self : Tmux.TmuxTerminal) (w : World) (directory : string) :
  run (Tmux.session_exists self EmptyString) w = (Returned false, [])
  /\ run (Tmux.session_in_directory self EmptyString directory) w = (Returned false, []).
Proof. split; reflexivity. Qed.

(** C7.  [switch_to_session] has no such guard: with an empty identifier it
    issues the window-identifier query, then both selections, and reports
    true when they succeed. *)
Theorem switch_to_session_empty_identifier :
  run (Tmux.switch_to_session (Demo.tmux false) EmptyString None) Demo.all_ok
  = (Returned true,
     [Spawn (CallR (Tmux.window_query EmptyString)) (Demo.ok "@1");
      Spawn (CallRW (Tmux.select_window "@1") false) (Demo.ok "@1");
      Spawn (CallRW (Tmux.select_pane EmptyString) false) (Demo.ok "@1")]).
Proof. reflexivity. Qed.

(** ** The editor driver *)

Lemma truthy_opt_false (o : option string) :
  truthy_opt o = false <-> o = None \/ o = Some EmptyString.
Proof.
  destruct o as [[|c s]|]; cbn; split; auto; try discriminate.
  intros [H|H]; discriminate H.
Qed.

Lemma truthy_opt_true (o : option string) :
  truthy_opt o = true <-> exists s, o = Some s /\ s <> EmptyString.
Proof.
  destruct o as [[|c s]|]; cbn; split; try discriminate; auto.
  - intros (s & [= <-] & Hs). now destruct Hs.
  - intros _. exists (String c s). split; [reflexivity|discriminate].
  - intros (s & H & _). discriminate H.
Qed.

Section Editor.
Variable self : VSCode.VSCodeTerminal.
Variable w : World.

(** C6.  Without the UI-scripting facility every session-management
    operation of the editor driver gives the negative or empty result and
    calls nothing. *)
Theorem editor_gated_without_scripting (session_id target : string) (script : option string)
    (subdirectory_ok : bool) :
  Base.is_macos (VSCode.applescript self) = false ->
  run (VSCode.session_exists self session_id) w = (Returned false, [])
  /\ run (VSCode.find_session_by_working_directory self target subdirectory_ok) w
     = (Returned None, [])
  /\ run (VSCode.switch_to_session self session_id script) w = (Returned false, [])
  /\ VSCode.supports_session_management self = false.
Proof.
  intros Hplatform.
  unfold VSCode.find_session_by_working_directory, VSCode.session_exists,
    VSCode.switch_to_session, VSCode.supports_session_management.
  unfold_m. rewrite Hplatform. repeat split.
Qed.

(** C10, amended.  [find_session_by_working_directory] of the editor driver
    does the same, calls included, for both values of [subdirectory_ok];
    a result other than [None] is the given [target_path] itself; and for
    either value the result is [target_path] exactly when
    [session_exists(target_path)] is true, with the calls of
    [session_exists] and no others.  What matches is therefore what the
    window script of [session_exists] accepts. *)
Theorem editor_find_ignores_subdirectory_flag (target_path : string) :
  run (VSCode.find_session_by_working_directory self target_path true) w
  = run (VSCode.find_session_by_working_directory self target_path false) w
  /\ (forall subdirectory_ok found,
        fst (run (VSCode.find_session_by_working_directory self target_path subdirectory_ok) w)
        = Returned (Some found) ->
        found = target_path)
  /\ (forall subdirectory_ok,
        (fst (run (VSCode.find_session_by_working_directory self target_path subdirectory_ok) w)
         = Returned (Some target_path)
         <-> fst (run (VSCode.session_exists self target_path) w) = Returned true)
        /\ snd (run (VSCode.find_session_by_working_directory self target_path subdirectory_ok) w)
           = snd (run (VSCode.session_exists self target_path) w)).
Proof.
  split; [reflexivity|]. split.
  - intros subdirectory_ok found. unfold VSCode.find_session_by_working_directory, run, bind.
    destruct (VSCode.session_exists self target_path w []) as [[[|]|] log]; cbn; congruence.
  - intros subdirectory_ok. unfold VSCode.find_session_by_working_directory, run, bind.
    destruct (VSCode.session_exists self target_path w []) as [[[|]|] log]; cbn;
      (split; [split; congruence|reflexivity]).
Qed.

(** C9, amended.  [detect] calls nothing and depends only on the two
    markers.  It is false unless the primary marker is ["vscode"]; when it
    is, the [vscode] variant detects exactly when the secondary marker is
    unset or empty, and the [cursor] variant exactly when it is set and not
    empty. *)
Theorem editor_detect (term_program : option string) (platform_name : string) :
  exists detected,
    run (VSCode.detect self term_program platform_name) w = (Returned detected, [])
    /\ (forall w' platform_name',
          environ w' !! "CURSOR_TRACE_ID" = environ w !! "CURSOR_TRACE_ID" ->
          run (VSCode.detect self term_program platform_name') w' = (Returned detected, []))
    /\ (term_program <> Some "vscode" -> detected = false)
    /\ (term_program = Some "vscode" -> VSCode.variant self = VSCode.vscode ->
          (detected = true
           <-> environ w !! "CURSOR_TRACE_ID" = None
               \/ environ w !! "CURSOR_TRACE_ID" = Some EmptyString))
    /\ (term_program = Some "vscode" -> VSCode.variant self = VSCode.cursor ->
          (detected = true
           <-> exists id, environ w !! "CURSOR_TRACE_ID" = Some id /\ id <> EmptyString)).
Proof.
  unfold VSCode.detect. unfold_m.
  destruct (bool_decide_reflect (term_program = Some "vscode")) as [Hprimary|Hprimary]; cbn.
  - exists (match VSCode.variant self with
            | VSCode.vscode => negb (truthy_opt (environ w !! "CURSOR_TRACE_ID"))
            | VSCode.cursor => truthy_opt (environ w !! "CURSOR_TRACE_ID")
            end).
    split; [now destruct (VSCode.variant self)|].
    split; [intros w' ? ->; now destruct (VSCode.variant self)|].
    split; [contradiction|].
    split; intros _ ->.
    + rewrite negb_true_iff. apply truthy_opt_false.
    + apply truthy_opt_true.
  - exists false. split; [reflexivity|]. split; [reflexivity|].
    split; [reflexivity|]. split; intros; contradiction.
Qed.

End Editor.

(** An editor driver on a platform without UI scripting. *)
Lemma editor_gated_without_scripting_witness :
  run (VSCode.session_exists (Demo.editor VSCode.vscode false) "/home/u/proj") Demo.all_ok
  = (Returned false, [])
  /\ run (VSCode.switch_to_session (Demo.editor VSCode.vscode false) "/home/u/proj" (Some "ls"))
       Demo.all_ok
     = (Returned false, []).
Proof.
  destruct (editor_gated_without_scripting (Demo.editor VSCode.vscode false) Demo.all_ok
              "/home/u/proj" "/home/u/proj" (Some "ls") true eq_refl)
    as (Hexists & _ & Hswitch & _).
  split; [exact Hexists|exact Hswitch].
Defined.

(** On the supported platform the same query does reach the scripting
    host, once per process name. *)
Example editor_session_exists_on_macos :
  run (VSCode.session_exists (Demo.editor VSCode.vscode true) "/w") Demo.all_ok
  = (Returned false,
     [OsaScript (window_exists_script "Code" "file:///w") (Returned None);
      OsaScript (window_exists_script "Visual Studio Code" "file:///w") (Returned None)]).
Proof. reflexivity. Qed.

(** C9, as stated, fails: with the secondary marker present but empty the
    [vscode] variant detects and the [cursor] variant does not. *)
Lemma editor_detect_empty_marker :
  environ Demo.empty_trace_id !! "CURSOR_TRACE_ID" = Some EmptyString
  /\ fst (run (VSCode.detect (Demo.editor VSCode.vscode false) (Some "vscode") "Linux")
            Demo.empty_trace_id) = Returned true
  /\ fst (run (VSCode.detect (Demo.editor VSCode.cursor false) (Some "vscode") "Linux")
            Demo.empty_trace_id) = Returned false.
Proof. repeat split; vm_compute; reflexivity. Qed.

(** C10, as stated, fails: subdirectory matching is performed, whatever
    the flag.  With one editor window on a document below [/w], the lookup
    of [/w] with [subdirectory_ok] false finds it. *)
Lemma editor_find_matches_below_target :
  let desktop := [("Code", [None; Some "file:///w/sub/notes.txt"])] in
  Host.window_matches "file:///w" (Some "file:///w/sub/notes.txt") = true
  /\ run (VSCode.find_session_by_working_directory (Demo.editor VSCode.vscode true) "/w" false)
       (Host.world desktop)
     = (Returned (Some "/w"),
        [OsaScript (window_exists_script "Code" "file:///w") (Returned (Some "true"))]).
Proof. split; reflexivity. Qed.

(** ** Capabilities *)

(** C8.  A driver that overrides none of the eight predicates reports all
    eight flags false; the multiplexer driver reports all eight true. *)
Theorem capabilities_none_and_all :
  (forall (Self : Type) (self : Self),
     Base.get_capabilities (H := Base.inherited Self) self = Base.all_flags false)
  /\ (forall self : Base.MinimalTerminal, Base.get_capabilities self = Base.all_flags false)
  /\ (forall self : Tmux.TmuxTerminal, Base.get_capabilities self = Base.all_flags true).
Proof. repeat split. Qed.

(** The editor driver, for comparison: create-windows always, switching
    only with UI scripting, nothing else. *)
Example editor_capabilities (self : VSCode.VSCodeTerminal) :
  Base.get_capabilities self
  = {| Base.can_create_tabs := false;
       Base.can_create_windows := true;
       Base.can_list_sessions := false;
       Base.can_switch_to_session := Base.is_macos (VSCode.applescript self);
       Base.can_detect_session_id := false;
       Base.can_detect_working_directory := false;
       Base.can_paste_commands := false;
       Base.can_run_in_active_session := false |}.
Proof. reflexivity. Qed.

(** ** Trimming and splitting *)
Section Strings.

Lemma lstrip_length (s : string) : (String.length (lstrip s) <= String.length s)%nat.
Proof. induction s as [|c r IH]; cbn; [lia|]. destruct (isspace c); cbn; lia. Qed.

Lemma rstrip_length (s : string) : (String.length (rstrip s) <= String.length s)%nat.
Proof.
  induction s as [|c r IH]; cbn; [lia|].
  destruct (rstrip r); [destruct (isspace c)|]; cbn in *; lia.
Qed.

Lemma lstrip_cases (s : string) :
  lstrip s = EmptyString \/ exists c r, lstrip s = String c r /\ isspace c = false.
Proof.
  induction s as [|c r IH]; cbn; [now left|].
  destruct (isspace c) eqn:Hc; [exact IH|]. right. eauto.
Qed.

Lemma rstrip_idempotent (s : string) : rstrip (rstrip s) = rstrip s.
Proof.
  induction s as [|c r IH]; cbn; [reflexivity|].
  destruct (rstrip r) as [|k ks] eqn:Hr.
  - destruct (isspace c) eqn:Hc; cbn; [reflexivity|]. now rewrite Hc.
  - change (rstrip (String c (String k ks))) with
      (match rstrip (String k ks) with
       | EmptyString => if isspace c then EmptyString else String c EmptyString
       | kept => String c kept
       end).
    now rewrite IH.
Qed.

Lemma rstrip_keeps_head (c : ascii) (r : string) :
  isspace c = false -> exists r', rstrip (String c r) = String c r'.
Proof. intros Hc. cbn. destruct (rstrip r); [rewrite Hc|]; eauto. Qed.

Lemma strip_idempotent (s : string) : strip (strip s) = strip s.
Proof.
  unfold strip. destruct (lstrip_cases s) as [->|(c & r & -> & Hc)]; [reflexivity|].
  destruct (rstrip_keeps_head c r Hc) as [r' Hr]. rewrite Hr.
  cbn [lstrip]. rewrite Hc, <- Hr. apply rstrip_idempotent.
Qed.

Lemma trimmed_head (c : ascii) (r : string) : trimmed (String c r) -> isspace c = false.
Proof.
  unfold trimmed, strip. intros Hs. destruct (isspace c) eqn:Hc; [|reflexivity].
  cbn [lstrip] in Hs. rewrite Hc in Hs.
  pose proof (rstrip_length (lstrip r)). pose proof (lstrip_length r).
  rewrite Hs in *. cbn in *. lia.
Qed.

Lemma trimmed_lstrip (s : string) : trimmed s -> lstrip s = s.
Proof.
  destruct s as [|c r]; [reflexivity|]. intros Hs. cbn. now rewrite (trimmed_head c r Hs).
Qed.

Lemma trimmed_rstrip (s : string) : trimmed s -> rstrip s = s.
Proof. intros Hs. pose proof Hs as Hs'. unfold trimmed, strip in Hs'. now rewrite trimmed_lstrip in Hs'. Qed.

Lemma append_cons (c : ascii) (a b : string) : String c a ++ b = String c (a ++ b).
Proof. reflexivity. Qed.

Lemma append_nil (b : string) : EmptyString ++ b = b.
Proof. reflexivity. Qed.

Lemma has_char_app (c : ascii) (a b : string) :
  has_char c (a ++ b) = has_char c a || has_char c b.
Proof.
  induction a as [|x a IH]; [reflexivity|].
  change (String x a ++ b) with (String x (a ++ b)).
  cbn [has_char]. rewrite IH. apply orb_assoc.
Qed.

Lemma has_char_lstrip (c : ascii) (s : string) :
  has_char c s = false -> has_char c (lstrip s) = false.
Proof.
  induction s as [|x r IH]; cbn; [reflexivity|]. intros H.
  apply orb_false_iff in H as [Hx Hr]. destruct (isspace x); [auto|]. cbn. now rewrite Hx, Hr.
Qed.

Lemma has_char_rstrip (c : ascii) (s : string) :
  has_char c s = false -> has_char c (rstrip s) = false.
Proof.
  induction s as [|x r IH]; cbn; [reflexivity|]. intros H.
  apply orb_false_iff in H as [Hx Hr]. specialize (IH Hr).
  destruct (rstrip r); [destruct (isspace x)|]; cbn in *; rewrite ?Hx; auto.
Qed.

Lemma has_char_strip (c : ascii) (s : string) :
  has_char c s = false -> has_char c (strip s) = false.
Proof. intros H. unfold strip. now apply has_char_rstrip, has_char_lstrip. Qed.

Lemma split_pieces (sep : ascii) (s : string) :
  Forall (fun piece => has_char sep piece = false) (split sep s).
Proof.
  induction s as [|c r IH]; cbn; [repeat constructor|].
  destruct (Ascii.eqb c sep) eqn:Hc; [constructor; [reflexivity|exact IH]|].
  destruct (split sep r) as [|f fs]; [repeat constructor; cbn; now rewrite Hc|].
  inversion IH; subst. constructor; [cbn; now rewrite Hc|assumption].
Qed.

Lemma split_once_some (sep : ascii) (s a b : string) :
  split_once sep s = Some (a, b) -> s = a ++ String sep b /\ has_char sep a = false.
Proof.
  revert a. induction s as [|c r IH]; cbn; [discriminate|]. intros a.
  destruct (Ascii.eqb_spec c sep) as [->|Hc].
  - intros [= <- <-]. split; reflexivity.
  - destruct (split_once sep r) as [[a' b']|]; [|discriminate].
    intros [= <- <-]. destruct (IH a' eq_refl) as [-> Ha]. split; [reflexivity|].
    cbn. rewrite Ha. now destruct (Ascii.eqb_spec c sep).
Qed.

Lemma split_once_app (sep : ascii) (a b : string) :
  has_char sep a = false -> split_once sep (a ++ String sep b) = Some (a, b).
Proof.
  induction a as [|c a IH]; [rewrite append_nil; cbn; now rewrite Ascii.eqb_refl|].
  rewrite append_cons. cbn [has_char split_once].
  intros H. apply orb_false_iff in H as [Hc Ha]. now rewrite Hc, IH.
Qed.

Lemma split_plain (sep : ascii) (a : string) : has_char sep a = false -> split sep a = [a].
Proof.
  induction a as [|c a IH]; cbn; [reflexivity|].
  intros H. apply orb_false_iff in H as [Hc Ha]. now rewrite Hc, IH.
Qed.

Lemma split_app (sep : ascii) (a b : string) :
  has_char sep a = false -> split sep (a ++ String sep b) = a :: split sep b.
Proof.
  induction a as [|c a IH]; [rewrite append_nil; cbn; now rewrite Ascii.eqb_refl|].
  rewrite append_cons. cbn [has_char split].
  intros H. apply orb_false_iff in H as [Hc Ha]. now rewrite Hc, IH.
Qed.

Lemma rstrip_app (a b : string) : rstrip b <> EmptyString -> rstrip (a ++ b) = a ++ rstrip b.
Proof.
  intros Hb. induction a as [|c a IH]; [reflexivity|].
  rewrite !append_cons. cbn [rstrip]. rewrite IH.
  destruct (a ++ rstrip b) eqn:Hab; [|reflexivity].
  destruct a; [|discriminate]. now destruct Hb.
Qed.

Lemma rstrip_app_blank (a b : string) : rstrip b = EmptyString -> rstrip (a ++ b) = rstrip a.
Proof.
  intros Hb. induction a as [|c a IH]; [exact Hb|].
  rewrite append_cons. cbn [rstrip]. now rewrite IH.
Qed.

End Strings.

(** ** Pane listings *)
Section Listing.

Lemma append_assoc (a b c : string) : (a ++ b) ++ c = a ++ (b ++ c).
Proof. induction a as [|x a IH]; [reflexivity|]. rewrite !append_cons. now rewrite IH. Qed.

Lemma rstrip_cons (c : ascii) (r : string) :
  isspace c = false -> rstrip (String c r) = String c (rstrip r).
Proof. intros Hc. cbn. destruct (rstrip r); [now rewrite Hc|reflexivity]. Qed.

Lemma parse_line_plain (line : string) (s : Tmux.Session) :
  has_char newline line = false -> Tmux.parse_line line = Some s -> plain_session s.
Proof.
  unfold Tmux.parse_line. intros Hline.
  destruct (truthy (strip line)); [|discriminate].
  destruct (split_once pipe (strip line)) as [[pane_id path]|] eqn:Hsplit; [|discriminate].
  intros [= <-]. apply split_once_some in Hsplit as [Hjoin Hpipe].
  apply has_char_strip in Hline. rewrite Hjoin, has_char_app in Hline.
  apply orb_false_iff in Hline as [Hid Hpath].
  cbn [has_char] in Hpath. apply orb_false_iff in Hpath as [_ Hpath].
  unfold plain_session, trimmed; cbn [Tmux.session_id Tmux.working_directory].
  repeat split; auto using strip_idempotent, has_char_strip.
Qed.

Lemma listing_line_head (s : Tmux.Session) :
  plain_session s -> exists c r, listing_line s = String c r /\ isspace c = false.
Proof.
  intros (Hid & _). unfold listing_line.
  destruct (Tmux.session_id s) as [|c r] eqn:Hs.
  - exists pipe, (Tmux.working_directory s). split; reflexivity.
  - exists c, (r ++ String pipe (Tmux.working_directory s)). split; [reflexivity|].
    now apply (trimmed_head c r).
Qed.

Lemma listing_line_trimmed (s : Tmux.Session) : plain_session s -> trimmed (listing_line s).
Proof.
  intros Hs. destruct (listing_line_head s Hs) as (c & r & Hline & Hc).
  destruct Hs as (_ & Hpath & _).
  unfold trimmed, strip. rewrite Hline. cbn [lstrip]. rewrite Hc, <- Hline.
  unfold listing_line. rewrite rstrip_app.
  - rewrite rstrip_cons by reflexivity. now rewrite (trimmed_rstrip _ Hpath).
  - now rewrite rstrip_cons.
Qed.

Lemma parse_line_listing (s : Tmux.Session) :
  plain_session s -> Tmux.parse_line (listing_line s) = Some s.
Proof.
  intros Hs. unfold Tmux.parse_line. rewrite (listing_line_trimmed s Hs).
  destruct (listing_line_head s Hs) as (c & r & Hline & _). rewrite Hline. cbn [truthy].
  rewrite <- Hline. destruct Hs as (Hid & Hpath & _ & _ & Hpipe).
  unfold listing_line. rewrite split_once_app by assumption.
  rewrite Hid, Hpath. now destruct s.
Qed.

Lemma render_listing_cons (s : Tmux.Session) (rest : list Tmux.Session) :
  render_listing (s :: rest) = listing_line s ++ String newline (render_listing rest).
Proof. cbn [render_listing]. unfold listing_line. now rewrite append_assoc. Qed.

Lemma join_lines_cons (line next : string) (rest : list string) :
  join_lines (line :: next :: rest) = line ++ String newline (join_lines (next :: rest)).
Proof. reflexivity. Qed.

Lemma rstrip_render (s : Tmux.Session) (rest : list Tmux.Session) :
  Forall plain_session (s :: rest) ->
  rstrip (render_listing (s :: rest)) = join_lines (map listing_line (s :: rest)).
Proof.
  revert s. induction rest as [|next rest IH]; intros s Hall; inversion Hall as [|? ? Hs Hrest]; subst.
  - rewrite render_listing_cons. rewrite rstrip_app_blank by reflexivity.
    apply trimmed_rstrip, listing_line_trimmed, Hs.
  - rewrite render_listing_cons. cbn [map]. rewrite join_lines_cons.
    change (join_lines (listing_line next :: map listing_line rest))
      with (join_lines (map listing_line (next :: rest))).
    rewrite <- (IH next Hrest).
    assert (Hmore : rstrip (render_listing (next :: rest)) <> EmptyString).
    { rewrite (IH next Hrest). inversion Hrest as [|? ? Hnext _]; subst.
      destruct (listing_line_head next Hnext) as (c & r & Hline & _).
      cbn [map]. destruct (map listing_line rest); cbn [join_lines]; rewrite Hline; discriminate. }
    rewrite rstrip_app.
    + cbn [rstrip]. now destruct (rstrip (render_listing (next :: rest))).
    + cbn [rstrip]. now destruct (rstrip (render_listing (next :: rest))).
Qed.

Lemma strip_render (sessions : list Tmux.Session) :
  Forall plain_session sessions ->
  strip (render_listing sessions) = join_lines (map listing_line sessions).
Proof.
  destruct sessions as [|s rest]; [reflexivity|]. intros Hall.
  unfold strip. rewrite <- rstrip_render by assumption. f_equal.
  inversion Hall as [|? ? Hs _]; subst.
  destruct (listing_line_head s Hs) as (c & r & Hline & Hc).
  rewrite render_listing_cons, Hline, append_cons. cbn [lstrip]. now rewrite Hc.
Qed.

Lemma split_join_lines (lines : list string) :
  lines <> [] -> Forall (fun line => has_char newline line = false) lines ->
  split newline (join_lines lines) = lines.
Proof.
  induction lines as [|line rest IH]; [congruence|]. intros _ Hall.
  inversion Hall as [|? ? Hline Hrest]; subst.
  destruct rest as [|next rest]; [now apply split_plain|].
  rewrite join_lines_cons, split_app by assumption. f_equal. now apply IH.
Qed.

Lemma listing_line_one_line (s : Tmux.Session) :
  plain_session s -> has_char newline (listing_line s) = false.
Proof.
  intros (_ & _ & Hid & Hpath & _). unfold listing_line.
  rewrite has_char_app, Hid. cbn. exact Hpath.
Qed.

Lemma parse_rendered (sessions : list Tmux.Session) :
  Forall plain_session sessions ->
  omap Tmux.parse_line (map listing_line sessions) = sessions.
Proof.
  induction 1 as [|s rest Hs _ IH]; [reflexivity|].
  cbn. rewrite (parse_line_listing s Hs). cbn. now rewrite IH.
Qed.

(** X1.  Every pane [list_sessions] returns has a trimmed identifier and a
    trimmed path, neither contains a newline, and the identifier contains
    no pipe: a line is cut at its first pipe only. *)
Theorem list_sessions_plain (self : Tmux.TmuxTerminal) (w : World)
    (sessions : list Tmux.Session) :
  fst (run (Tmux.list_sessions self) w) = Returned sessions ->
  Forall plain_session sessions.
Proof.
  unfold Tmux.list_sessions. unfold_m.
  destruct (subprocess w [] _) as [[rc out]|]; cbn -[Z.eqb strip]; [|intros [= <-]; constructor].
  destruct (rc =? 0); cbn -[strip]; [|intros [= <-]; constructor].
  destruct (truthy out); cbn -[strip]; intros [= <-]; [|constructor].
  pose proof (split_pieces newline (strip out)) as Hlines.
  induction Hlines as [|line lines Hline _ IH]; [constructor|].
  cbn. destruct (Tmux.parse_line line) as [s|] eqn:Hparse; [|exact IH].
  constructor; [|exact IH]. now apply (parse_line_plain line).
Qed.

(** X2.  Parsing inverts printing: when tmux prints one [id|path] line per
    pane, for panes whose fields are ASCII, trimmed and newline-free and
    whose identifiers have no pipe, [list_sessions] returns exactly those
    panes, in order.  Paths may contain pipes.  (Outside ASCII the code
    trims more white space than [isspace] knows.) *)
Theorem list_sessions_round_trip (self : Tmux.TmuxTerminal) (w : World)
    (sessions : list Tmux.Session) :
  Forall ascii_session sessions ->
  Forall plain_session sessions ->
  subprocess w [] listing_query
  = Returned {| returncode := 0; stdout := render_listing sessions |} ->
  fst (run (Tmux.list_sessions self) w) = Returned sessions.
Proof.
  intros _ Hall Hquery. unfold Tmux.list_sessions. unfold_m.
  change ["tmux"; "list-panes"; "-a"; "-F"; "#{pane_id}|#{pane_current_path}"] with listing_query.
  rewrite Hquery. cbn -[strip render_listing].
  destruct sessions as [|s rest]; [reflexivity|].
  assert (Hsome : truthy (render_listing (s :: rest)) = true).
  { inversion Hall as [|? ? Hs _]; subst.
    destruct (listing_line_head s Hs) as (c & r & Hline & _).
    now rewrite render_listing_cons, Hline. }
  rewrite Hsome. cbn -[strip render_listing]. rewrite strip_render by assumption.
  rewrite split_join_lines.
  - now rewrite parse_rendered.
  - discriminate.
  - apply Forall_map. eapply Forall_impl; [exact Hall|]. apply listing_line_one_line.
Qed.

End Listing.

(** ** The multiplexer driver: queries *)
Section TmuxQueries.
Variable self : Tmux.TmuxTerminal.
Variable w : World.

Lemma contains_stripped (x : string) (lines : list string) :
  contains x (map strip lines) = true -> exists line, In line lines /\ x = strip line.
Proof.
  unfold contains. intros H. apply existsb_exists in H as (y & Hin & Heq).
  apply String.eqb_eq in Heq as <-. apply in_map_iff in Hin as (line & <- & Hin). eauto.
Qed.

(** X3.  [session_exists] answers true only for a non-empty identifier that
    is trimmed and contains no newline, and it makes exactly one call, the
    read-only pane listing. *)
Theorem session_exists_sound (session_id : string) :
  fst (run (Tmux.session_exists self session_id) w) = Returned true ->
  truthy session_id = true /\ trimmed session_id /\ has_char newline session_id = false
  /\ calls (snd (run (Tmux.session_exists self session_id) w)) = [CallR pane_query].
Proof.
  unfold Tmux.session_exists. unfold_m.
  destruct (truthy session_id); cbn -[Z.eqb strip]; [|discriminate].
  destruct (subprocess w [] _) as [[rc out]|]; cbn -[Z.eqb strip]; [|discriminate].
  destruct (rc =? 0); cbn -[strip]; [|discriminate].
  destruct (truthy out); cbn -[strip]; [|discriminate].
  intros [= Hin]. apply contains_stripped in Hin as (line & Hin & ->).
  repeat split.
  - apply strip_idempotent.
  - apply has_char_strip.
    pose proof (split_pieces newline (strip out)) as Hall.
    rewrite Forall_forall in Hall. apply Hall. now apply list_elem_of_In.
Qed.

(** X4.  [session_in_directory] answers true only for a non-empty
    identifier and a directory string without leading or trailing white
    space (the pane's path is trimmed before the comparison), after exactly
    one read-only query addressed to that pane. *)
Theorem session_in_directory_sound (session_id directory : string) :
  fst (run (Tmux.session_in_directory self session_id directory) w) = Returned true ->
  truthy session_id = true /\ trimmed directory
  /\ calls (snd (run (Tmux.session_in_directory self session_id directory) w))
     = [CallR ["tmux"; "display-message"; "-p"; "-t"; session_id; "-F"; "#{pane_current_path}"]].
Proof.
  unfold Tmux.session_in_directory. unfold_m.
  destruct (truthy session_id); cbn -[Z.eqb strip]; [|discriminate].
  destruct (subprocess w [] _) as [[rc out]|]; cbn -[Z.eqb strip]; [|discriminate].
  destruct (rc =? 0); cbn -[strip]; [|discriminate].
  destruct (truthy out); cbn -[strip]; [|discriminate].
  intros [= Heq]. apply String.eqb_eq in Heq as <-.
  repeat split. apply strip_idempotent.
Qed.

(** X5.  [list_sessions] makes exactly one call, the read-only listing, and
    returns the empty list when that call raises, exits with a non-zero
    status or prints nothing. *)
Theorem list_sessions_failure :
  calls (snd (run (Tmux.list_sessions self) w)) = [CallR listing_query]
  /\ (subprocess w [] listing_query = Raised ->
      fst (run (Tmux.list_sessions self) w) = Returned [])
  /\ (forall p, subprocess w [] listing_query = Returned p ->
        returncode p <> 0 \/ stdout p = EmptyString ->
        fst (run (Tmux.list_sessions self) w) = Returned []).
Proof.
  unfold Tmux.list_sessions. unfold_m.
  change ["tmux"; "list-panes"; "-a"; "-F"; "#{pane_id}|#{pane_current_path}"] with listing_query.
  repeat split.
  - destruct (subprocess w [] listing_query) as [[rc out]|]; cbn -[Z.eqb strip]; [|reflexivity].
    destruct (rc =? 0); cbn -[strip]; [|reflexivity]. now destruct (truthy out).
  - now intros ->.
  - intros [rc out] -> Hwhy. cbn -[Z.eqb strip]. cbn in Hwhy.
    destruct (Z.eqb_spec rc 0) as [->|Hrc]; cbn -[strip]; [|reflexivity].
    destruct Hwhy as [Hrc| ->]; [contradiction|reflexivity].
Qed.

(** X6.  [find_session_by_working_directory] makes exactly one call, the
    pane listing, whatever the target and the flag, and returns [None]
    when nothing is listed. *)
Theorem find_session_single_query (target : string) (subdirectory_ok : bool) :
  calls (snd (run (Tmux.find_session_by_working_directory self target subdirectory_ok) w))
  = [CallR listing_query]
  /\ (fst (run (Tmux.list_sessions self) w) = Returned [] ->
      fst (run (Tmux.find_session_by_working_directory self target subdirectory_ok) w)
      = Returned None).
Proof.
  split.
  - rewrite find_session_log.
    unfold Tmux.list_sessions. unfold_m.
    destruct (subprocess w [] _) as [[rc out]|]; cbn -[Z.eqb strip]; [|reflexivity].
    destruct (rc =? 0); cbn -[strip]; [|reflexivity]. now destruct (truthy out).
  - intros Hnone. rewrite (find_session_run self w target subdirectory_ok [] Hnone).
    now destruct subdirectory_ok.
Qed.

(** X7.  Permitting subdirectory matches never changes an exact match: a
    pane found with [subdirectory_ok] false is the pane found with it
    true. *)
Theorem find_session_flag_monotone (target found : string) :
  fst (run (Tmux.find_session_by_working_directory self target false) w)
  = Returned (Some found) ->
  fst (run (Tmux.find_session_by_working_directory self target true) w)
  = Returned (Some found).
Proof.
  destruct (list_sessions_returns self w) as [sessions Hlist].
  rewrite !(find_session_run self w target _ sessions Hlist).
  destruct (first_match (exact_test w target) sessions); [auto|discriminate].
Qed.

End TmuxQueries.

(** ** The multiplexer driver: commands *)
Section TmuxCommands.
Variable self : Tmux.TmuxTerminal.
Variable w : World.




(** X11.  The seven operations of the multiplexer driver that only talk to
    the process helpers never let an exception of a helper escape: each
    returns a value whatever the helpers do.
    [find_session_by_working_directory] is left out: it normalizes paths
    outside any handler. *)
Theorem multiplexer_never_raises (session_id directory working_directory command : string)
    (script : option string) :
  (exists b, fst (run (Tmux.session_exists self session_id) w) = Returned b)
  /\ (exists b, fst (run (Tmux.session_in_directory self session_id directory) w) = Returned b)
  /\ (exists b, fst (run (Tmux.switch_to_session self session_id script) w) = Returned b)
  /\ (exists b, fst (run (Tmux.open_new_tab self working_directory script) w) = Returned b)
  /\ (exists b, fst (run (Tmux.open_new_window self working_directory script) w) = Returned b)
  /\ (exists l, fst (run (Tmux.list_sessions self) w) = Returned l)
  /\ (exists b, fst (run (Tmux.run_in_active_session self command) w) = Returned b).
Proof.
  repeat split.
  - unfold Tmux.session_exists. unfold_m.
    destruct (truthy session_id); all_worlds; try destruct (truthy _); cbn; eauto.
  - unfold Tmux.session_in_directory. unfold_m.
    destruct (truthy session_id); all_worlds; try destruct (truthy _); cbn; eauto.
  - unfold Tmux.switch_to_session. unfold_m.
    destruct script as [[|c keys]|]; all_worlds; eauto.
  - unfold Tmux.open_new_tab. unfold_m. all_worlds; eauto.
  - unfold Tmux.open_new_window. unfold_m.
    destruct script as [[|c keys]|]; all_worlds; try destruct (truthy _); all_worlds; eauto.
  - apply list_sessions_returns.
  - unfold Tmux.run_in_active_session, Tmux.get_current_session_id. unfold_m.
    destruct (environ w !! "TMUX_PANE") as [[|c pane]|]; all_worlds; eauto.
Qed.

End TmuxCommands.

(** X12.  A switch that succeeds for real also succeeds under dry-run, with
    the same argument vectors in the same order. *)
Theorem dry_run_follows_real_switch (app : Base.AppleScriptService) (w : World)
    (session_id : string) (script : option string) :
  let real := {| Tmux.applescript := app; Tmux.command_service := {| Base.dry_run := false |} |} in
  let dry := {| Tmux.applescript := app; Tmux.command_service := {| Base.dry_run := true |} |} in
  fst (run (Tmux.switch_to_session real session_id script) w) = Returned true ->
  fst (run (Tmux.switch_to_session dry session_id script) w) = Returned true
  /\ map command_of (calls (snd (run (Tmux.switch_to_session dry session_id script) w)))
     = map command_of (calls (snd (run (Tmux.switch_to_session real session_id script) w))).
Proof.
  cbv zeta. unfold Tmux.switch_to_session. unfold_m. cbn [Tmux.command_service Base.dry_run].
  destruct script as [[|c keys]|]; all_worlds; intros; try discriminate; split; reflexivity.
Qed.

(** ** The editor driver: scripts *)




Section EditorScripts.
Variable self : VSCode.VSCodeTerminal.
Variable w : World.




End EditorScripts.

(** X17.  In every environment exactly one of the two editor variants
    detects when the primary marker is [vscode], and neither does
    otherwise. *)
Theorem editor_detect_exclusive (app app' : Base.AppleScriptService) (w : World)
    (term_program : option string) (platform_name : string) :
  exists as_vscode as_cursor,
    fst (run (VSCode.detect {| VSCode.applescript := app; VSCode.variant := VSCode.vscode |}
                term_program platform_name) w) = Returned as_vscode
    /\ fst (run (VSCode.detect {| VSCode.applescript := app'; VSCode.variant := VSCode.cursor |}
                   term_program platform_name) w) = Returned as_cursor
    /\ (term_program = Some "vscode" -> as_vscode = negb as_cursor)
    /\ (term_program <> Some "vscode" -> as_vscode = false /\ as_cursor = false).
Proof.
  unfold VSCode.detect. unfold_m. cbn [VSCode.variant].
  destruct (bool_decide_reflect (term_program = Some "vscode")) as [Hprimary|Hprimary]; cbn.
  - exists (negb (truthy_opt (environ w !! "CURSOR_TRACE_ID"))),
      (truthy_opt (environ w !! "CURSOR_TRACE_ID")).
    split; [reflexivity|]. split; [reflexivity|]. split; [reflexivity|]. contradiction.
  - exists false, false.
    split; [reflexivity|]. split; [reflexivity|]. split; [contradiction|]. split; reflexivity.
Qed.

(** ** File URLs *)
Section FileUrl.

Ltac every_byte c := destruct c as [[] [] [] [] [] [] [] []]; vm_compute; reflexivity.

Lemma hexdigits_kept (c : ascii) :
  kept (hexdigit (nat_of_ascii c / 16)) && kept (hexdigit (nat_of_ascii c mod 16)) = true.
Proof. every_byte c. Qed.

Lemma kept_not_percent (c : ascii) : kept c && Ascii.eqb c "%" = false.
Proof. every_byte c. Qed.

Lemma unhex_hexdigits (c : ascii) :
  unhex (hexdigit (nat_of_ascii c / 16)) (hexdigit (nat_of_ascii c mod 16)) = c.
Proof. every_byte c. Qed.

Lemma quote_cons (c : ascii) (r : string) :
  quote (String c r)
  = if kept c then String c (quote r)
    else String "%" (String (hexdigit (nat_of_ascii c / 16))
                       (String (hexdigit (nat_of_ascii c mod 16)) (quote r))).
Proof. reflexivity. Qed.

Lemma quote_alphabet (s : string) (c : ascii) :
  has_char c (quote s) = true -> url_char c = true.
Proof.
  induction s as [|x r IH]; [discriminate|].
  rewrite quote_cons. pose proof (hexdigits_kept x) as Hhex.
  apply andb_true_iff in Hhex as [Hhi Hlo].
  destruct (kept x) eqn:Hx; cbn [has_char]; rewrite ?orb_true_iff;
    intros H; repeat destruct H as [H|H]; auto;
    apply Ascii.eqb_eq in H; subst c; unfold url_char; rewrite ?Hx, ?Hhi, ?Hlo; reflexivity.
Qed.

Lemma quote_plain (s : string) :
  (forall c, has_char c s = true -> kept c = true) -> quote s = s.
Proof.
  induction s as [|x r IH]; [reflexivity|]. intros Hall.
  rewrite quote_cons, (Hall x) by (cbn; now rewrite Ascii.eqb_refl).
  f_equal. apply IH. intros c Hc. apply Hall. cbn. rewrite Hc. apply orb_true_r.
Qed.

Lemma quote_injective (s t : string) : quote s = quote t -> s = t.
Proof.
  revert t. induction s as [|x r IH]; intros [|y u].
  - reflexivity.
  - rewrite quote_cons. cbn. destruct (kept y); discriminate.
  - rewrite quote_cons. cbn. destruct (kept x); discriminate.
  - rewrite !quote_cons.
    pose proof (kept_not_percent x) as Hx. pose proof (kept_not_percent y) as Hy.
    destruct (kept x) eqn:Kx, (kept y) eqn:Ky; cbn in Hx, Hy.
    + intros [= -> Hrest]. f_equal. auto.
    + intros [= -> _]. discriminate Hx.
    + intros [= <- _]. discriminate Hy.
    + intros [= Hhi Hlo Hrest].
      assert (Hxy : x = y).
      { etransitivity; [symmetry; apply unhex_hexdigits|].
        etransitivity; [exact (f_equal2 unhex Hhi Hlo)|apply unhex_hexdigits]. }
      subst y. f_equal. auto.
Qed.

Lemma startswith_app (p s : string) : startswith (p ++ s) p = true.
Proof.
  unfold startswith. induction p as [|c p IH]; [now destruct s|].
  rewrite append_cons. cbn [String.prefix]. now destruct (ascii_dec c c).
Qed.

Variable self : VSCode.VSCodeTerminal.
Variable w : World.

(** X18.  The file URL built from a path starts with [file://] and consists
    of letters, digits, [_.-~/%] and the colon of the scheme only: it holds
    no double quote, no backslash and no white space, so it cannot end the
    string literal of the script it is spliced into.  A path of kept
    characters only is passed unchanged. *)
Theorem file_url_alphabet (path : string) :
  exists url,
    run (VSCode._path_to_file_url self path) w = (Returned url, [])
    /\ startswith url "file://" = true
    /\ (forall c, has_char c url = true -> url_char c = true \/ c = ":"%char)
    /\ has_char (ascii_of_nat 34) url = false
    /\ has_char (ascii_of_nat 92) url = false
    /\ (forall c, isspace c = true -> has_char c url = false)
    /\ ((forall c, has_char c (resolve w path) = true -> kept c = true) ->
        url = "file://" ++ resolve w path).
Proof.
  exists ("file://" ++ quote (resolve w path)).
  assert (Hchars : forall c, has_char c ("file://" ++ quote (resolve w path)) = true ->
                             url_char c = true \/ c = ":"%char).
  { intros c. rewrite has_char_app, orb_true_iff. intros [Hscheme|Hquoted].
    - cbn [has_char] in Hscheme. rewrite !orb_true_iff in Hscheme.
      repeat destruct Hscheme as [Hscheme|Hscheme]; try discriminate;
        apply Ascii.eqb_eq in Hscheme; subst c; auto.
    - left. now apply quote_alphabet in Hquoted. }
  assert (Hnot : forall c, url_char c = false -> c <> ":"%char ->
                           has_char c ("file://" ++ quote (resolve w path)) = false).
  { intros c Hc Hcolon. destruct (has_char c _) eqn:Hin; [|reflexivity].
    destruct (Hchars c Hin); congruence. }
  split; [reflexivity|]. split; [apply startswith_app|].
  split; [exact Hchars|].
  split; [now apply Hnot|]. split; [now apply Hnot|]. split.
  - intros c Hc. apply Hnot.
    + revert Hc. destruct c as [[] [] [] [] [] [] [] []]; vm_compute; intros Hc;
        first [ reflexivity | discriminate Hc ].
    + intros ->. discriminate.
  - intros Hplain. now rewrite quote_plain.
Qed.

(** X19.  Two paths get the same file URL only if they resolve to the same
    path. *)
Theorem file_url_injective (path path' : string) :
  fst (run (VSCode._path_to_file_url self path) w)
  = fst (run (VSCode._path_to_file_url self path') w) ->
  resolve w path = resolve w path'.
Proof.
  cbn. intros [= Heq]. now apply quote_injective.
Qed.

End FileUrl.

(** ** The login shell *)
Section Shell.





End Shell.

(** ** Worked instances *)

(** The two panes of the listing scenario are plain. *)
Lemma list_sessions_plain_witness :
  Forall plain_session
    [ {| Tmux.session_id := "%0"; Tmux.working_directory := "/home/u/proj" |};
      {| Tmux.session_id := "%1"; Tmux.working_directory := "/home/u/proj/sub" |} ].
Proof.
  apply (list_sessions_plain (Demo.tmux false) Demo.two_panes). reflexivity.
Defined.

(** The listing scenario read back. *)
Lemma list_sessions_round_trip_witness :
  fst (run (Tmux.list_sessions (Demo.tmux false)) Demo.two_panes)
  = Returned
      [ {| Tmux.session_id := "%0"; Tmux.working_directory := "/home/u/proj" |};
        {| Tmux.session_id := "%1"; Tmux.working_directory := "/home/u/proj/sub" |} ].
Proof.
  apply (list_sessions_round_trip (Demo.tmux false) Demo.two_panes).
  - repeat constructor.
  - repeat constructor.
  - reflexivity.
Defined.

(** A path with a pipe in it survives the parse. *)
Example list_sessions_pipe_in_path :
  fst (run (Tmux.list_sessions (Demo.tmux false))
         (Demo.world_of ∅ (fun _ _ => Demo.ok ("%0|/tmp/a|b" ++ Demo.nl)) (fun p => p)))
  = Returned [ {| Tmux.session_id := "%0"; Tmux.working_directory := "/tmp/a|b" |} ].
Proof. reflexivity. Qed.

Lemma session_exists_sound_witness :
  trimmed "@1" /\ has_char newline "@1" = false.
Proof.
  destruct (session_exists_sound (Demo.tmux false) Demo.all_ok "@1" eq_refl)
    as (_ & Htrim & Hline & _).
  split; [exact Htrim|exact Hline].
Defined.

Lemma session_in_directory_sound_witness : trimmed "/private/var/proj".
Proof.
  destruct (session_in_directory_sound (Demo.tmux false) Demo.pane_in_private_var
              "%0" "/private/var/proj" eq_refl)
    as (_ & Htrim & _).
  exact Htrim.
Defined.

Lemma find_session_flag_monotone_witness :
  fst (run (Tmux.find_session_by_working_directory (Demo.tmux false) "/home/u/proj" true)
         Demo.two_panes) = Returned (Some "%0").
Proof.
  apply (find_session_flag_monotone (Demo.tmux false) Demo.two_panes "/home/u/proj" "%0").
  vm_compute. reflexivity.
Defined.


(** The key-send may fail: the result stays true. *)
Example open_new_window_send_keys_fails :
  fst (run (Tmux.open_new_window (Demo.tmux false) "/w" (Some "ls"))
         (Demo.world_of ∅
            (fun _ cmd => if String.eqb (Demo.subcommand cmd) "send-keys"
                          then Demo.failed 1 else Demo.ok "$1")
            (fun p => p)))
  = Returned true.
Proof. reflexivity. Qed.

Lemma dry_run_follows_real_switch_witness :
  fst (run (Tmux.switch_to_session (Demo.tmux true) "%0" (Some "ls")) Demo.all_ok)
  = Returned true.
Proof.
  destruct (dry_run_follows_real_switch {| Base.is_macos := false |} Demo.all_ok "%0"
              (Some "ls") eq_refl) as [Hdry _].
  exact Hdry.
Defined.


Example editor_session_exists_second_app :
  run (VSCode.session_exists (Demo.editor VSCode.vscode true) "/w") Demo.second_app_answers
  = (Returned true,
     [OsaScript (window_exists_script "Code" "file:///w") (Returned (Some "false"));
      OsaScript (window_exists_script "Visual Studio Code" "file:///w")
        (Returned (Some "true"))]).
Proof. reflexivity. Qed.


(** The private helper itself does let an exception of the scripting host
    through; its caller does not. *)
Example find_window_with_path_raises :
  let w := {| environ := ∅; subprocess := fun _ _ => Raised;
              osascript := fun _ _ => Raised; resolve := fun p => p;
              path_exists := fun _ => true; which := fun _ => None |} in
  fst (run (VSCode._find_window_with_path (Demo.editor VSCode.cursor true) "/w") w) = Raised
  /\ fst (run (VSCode.switch_to_session (Demo.editor VSCode.cursor true) "/w" None) w)
     = Returned false.
Proof. split; reflexivity. Qed.

(** Where [/var] links to [/private/var], both spellings of a directory
    get one URL. *)
Lemma file_url_injective_witness :
  resolve Demo.pane_in_private_var "/var/proj"
  = resolve Demo.pane_in_private_var "/private/var/proj".
Proof.
  apply (file_url_injective (Demo.editor VSCode.vscode true) Demo.pane_in_private_var).
  vm_compute. reflexivity.
Defined.

Example file_url_escapes :
  fst (run (VSCode._path_to_file_url (Demo.editor VSCode.vscode true) "/home/u/my proj")
         Demo.all_ok)
  = Returned "file:///home/u/my%20proj".
Proof. reflexivity. Qed.

Example get_shell_name_zsh :
  fst (run (Base.get_shell_name (Demo.tmux false)) Demo.zsh_shell) = Returned (Some "zsh").
Proof. vm_compute. reflexivity. Qed.

Example run_in_active_session_in_pane :
  run (Tmux.run_in_active_session (Demo.tmux false) "make test") Demo.in_pane
  = (Returned true,
     [Spawn (CallRW (Tmux.send_keys "%3" "make test") false) (Demo.ok EmptyString)]).
Proof. vm_compute. reflexivity. Qed.
